(** * Attendance backend: time-bound QR tokens and the scan endpoints

    A shallow embedding of [main.py]: the token functions
    [generate_token] / [verify_token] with the library code they call
    (HMAC-SHA256, URL-safe base64), and the endpoints that record a scan
    and list a member's attendance over a model of the two MongoDB
    collections.

    Conventions.
    - A Python [str] is represented by its UTF-8 encoding, one [ascii]
      per byte, a surrogate code point (U+D800..U+DFFF) being written as
      the three bytes the [surrogatepass] handler gives (ED A0..BF xx).
      A [str] is ASCII-only iff every byte is below 128; [s.encode()]
      returns the representation unchanged unless it holds a surrogate,
      which it refuses with [UnicodeEncodeError].
    - An aware UTC [datetime] is represented by its number of microseconds
      since the Unix epoch (a [datetime] lies between the years 1 and
      9999, so this number is below 2^59 in absolute value).
      [now.timestamp()] is the double nearest to that number divided by
      10^6, and [int] drops its fraction towards zero.
    - The store keeps a [datetime] as whole milliseconds (BSON), rounding
      down.
    - Exceptions are values of [exn]; a call either returns or raises. *)

From Stdlib Require Import ZArith List String Ascii Bool Lia.
From Stdlib Require Import DecimalString DecimalZ DecimalPos.
From Stdlib Require Import Sorting.Sorted Sorting.Permutation.
Import ListNotations.

Local Open Scope string_scope.
Local Open Scope list_scope.
Local Open Scope Z_scope.

(** ** Python values and exceptions *)

Definition str := string.
Definition bytes := string.
Definition datetime := Z.

Inductive exn : Type :=
| HTTPException (status_code : Z) (detail : str)
| TypeError
| ZeroDivisionError
| UnicodeEncodeError.

Inductive result (A : Type) : Type :=
| Ok (a : A)
| Raise (e : exn).
Arguments Ok {A} a.
Arguments Raise {A} e.

Definition rbind {A B} (r : result A) (k : A -> result B) : result B :=
  match r with
  | Ok a => k a
  | Raise e => Raise e
  end.

Declare Scope py_scope.
Delimit Scope py_scope with py.
Notation "'let?' x ':=' r 'in' k" := (rbind r (fun x => k))
  (at level 10, x name, r at level 100, k at level 200) : py_scope.
Local Open Scope py_scope.

Module Py.

Definition ord (c : ascii) : Z := Z.of_N (N_of_ascii c).
Definition chr (z : Z) : ascii := ascii_of_N (Z.to_N (z mod 256)).

(** A surrogate code point in the representation: the byte ED followed by
    a byte in A0..BF. *)
Fixpoint has_surrogate (s : str) : bool :=
  match s with
  | EmptyString => false
  | String c rest =>
      match rest with
      | EmptyString => false
      | String c' _ =>
          ((ord c =? 237) && (160 <=? ord c') && (ord c' <=? 191)) || has_surrogate rest
      end
  end.

(** [s.encode()]: UTF-8, strict. *)
Definition encode (s : str) : result bytes :=
  if has_surrogate s then Raise UnicodeEncodeError else Ok s.

(** [b.decode()] on the ASCII bytes base64 produces. *)
Definition decode (b : bytes) : str := b.

Definition to_list (b : bytes) : list Z := map ord (list_ascii_of_string b).
Definition of_list (l : list Z) : bytes := string_of_list_ascii (map chr l).

(** [str(n)] for an [int]: decimal digits, a leading minus sign for
    negative numbers, no leading zeros. *)
Definition str_of_int (n : Z) : str := NilZero.string_of_int (Z.to_int n).

(** [a // b] *)
Definition floordiv (a b : Z) : result Z :=
  if b =? 0 then Raise ZeroDivisionError else Ok (a / b).

(** The integer nearest to [n / d], ties to the even one ([0 <= n],
    [0 < d]). *)
Definition round_half_even (n d : Z) : Z :=
  let q := n / d in
  let r := n mod d in
  if 2 * r <? d then q
  else if d <? 2 * r then q + 1
  else if Z.even q then q else q + 1.

(** [a / 10**6] for an int [a > 0] (true division): the nearest double,
    returned as [(m, k)] for the value [m / 2^k], with a 53-bit [m]. *)
Definition seconds_double (a : Z) : Z * Z :=
  let k0 := 71 - Z.log2 a in
  let k := if a * 2 ^ k0 / 1000000 <? 2 ^ 52 then k0 + 1 else k0 in
  (round_half_even (a * 2 ^ k) 1000000, k).

(** [int(now.timestamp())]: the seconds as a double, its fraction
    dropped towards zero. *)
Definition int_timestamp (now : datetime) : Z :=
  if now =? 0 then 0
  else
    let '(m, k) := seconds_double (Z.abs now) in
    Z.sgn now * (m / 2 ^ k).

Definition is_ascii_char (c : ascii) : bool := ord c <? 128.

Fixpoint isascii (s : str) : bool :=
  match s with
  | EmptyString => true
  | String c s' => is_ascii_char c && isascii s'
  end.

(** [s.rstrip(c)] for a one-character argument. *)
Fixpoint rstrip (c : ascii) (s : str) : str :=
  match s with
  | EmptyString => EmptyString
  | String x s' =>
      match rstrip c s' with
      | EmptyString => if Ascii.eqb x c then EmptyString else String x EmptyString
      | r => String x r
      end
  end.

(** [x in (a, b)] on strings. *)
Definition in2 (x a b : str) : bool := String.eqb x a || String.eqb x b.

(** [b.hex()]: two lower-case hexadecimal digits per byte. *)
Definition hexdigit (n : Z) : ascii :=
  nth (Z.to_nat n) (list_ascii_of_string "0123456789abcdef") "?"%char.

Definition hex (b : bytes) : str :=
  string_of_list_ascii
    (flat_map (fun z => [hexdigit (z / 16); hexdigit (z mod 16)]) (to_list b)).

End Py.

(** ** hashlib.sha256 (FIPS 180-4) *)

Module SHA256.

Definition w32 (x : Z) : Z := x mod 4294967296.
Definition add32 (x y : Z) : Z := w32 (x + y).
Definition rotr (n x : Z) : Z := Z.lor (Z.shiftr x n) (w32 (Z.shiftl x (32 - n))).
Definition shr (n x : Z) : Z := Z.shiftr x n.
Definition not32 (x : Z) : Z := Z.lxor x 4294967295.

Definition Ch (x y z : Z) : Z := Z.lxor (Z.land x y) (Z.land (not32 x) z).
Definition Maj (x y z : Z) : Z :=
  Z.lxor (Z.lxor (Z.land x y) (Z.land x z)) (Z.land y z).
Definition bsig0 (x : Z) : Z := Z.lxor (Z.lxor (rotr 2 x) (rotr 13 x)) (rotr 22 x).
Definition bsig1 (x : Z) : Z := Z.lxor (Z.lxor (rotr 6 x) (rotr 11 x)) (rotr 25 x).
Definition ssig0 (x : Z) : Z := Z.lxor (Z.lxor (rotr 7 x) (rotr 18 x)) (shr 3 x).
Definition ssig1 (x : Z) : Z := Z.lxor (Z.lxor (rotr 17 x) (rotr 19 x)) (shr 10 x).

(** Round constants: the first 32 bits of the fractional parts of the
    cube roots of the first 64 primes. *)
Definition round_constants : list Z :=
  [ 1116352408; 1899447441; 3049323471; 3921009573; 961987163; 1508970993;
    2453635748; 2870763221; 3624381080; 310598401; 607225278; 1426881987;
    1925078388; 2162078206; 2614888103; 3248222580; 3835390401; 4022224774;
    264347078; 604807628; 770255983; 1249150122; 1555081692; 1996064986;
    2554220882; 2821834349; 2952996808; 3210313671; 3336571891; 3584528711;
    113926993; 338241895; 666307205; 773529912; 1294757372; 1396182291;
    1695183700; 1986661051; 2177026350; 2456956037; 2730485921; 2820302411;
    3259730800; 3345764771; 3516065817; 3600352804; 4094571909; 275423344;
    430227734; 506948616; 659060556; 883997877; 958139571; 1322822218;
    1537002063; 1747873779; 1955562222; 2024104815; 2227730452; 2361852424;
    2428436474; 2756734187; 3204031479; 3329325298 ].

Record state : Type := mkState
  { s_a : Z; s_b : Z; s_c : Z; s_d : Z; s_e : Z; s_f : Z; s_g : Z; s_h : Z }.

(** Initial hash value: square roots of the first 8 primes. *)
Definition initial_state : state :=
  mkState 1779033703 3144134277 1013904242 2773480762
          1359893119 2600822924 528734635 1541459225.

(** Four bytes, most significant first, to a word and back. *)
Fixpoint words_of_bytes (l : list Z) : list Z :=
  match l with
  | b0 :: b1 :: b2 :: b3 :: rest =>
      (b0 * 16777216 + b1 * 65536 + b2 * 256 + b3) :: words_of_bytes rest
  | _ => []
  end.

Definition bytes_of_word (w : Z) : list Z :=
  [ (w / 16777216) mod 256; (w / 65536) mod 256; (w / 256) mod 256; w mod 256 ].

(** Message schedule: [win] holds the sixteen most recent words, oldest
    first. *)
Definition next_word (win : list Z) : Z :=
  add32 (add32 (ssig1 (nth 14 win 0)) (nth 9 win 0))
        (add32 (ssig0 (nth 1 win 0)) (nth 0 win 0)).

Fixpoint expand (n : nat) (win : list Z) : list Z :=
  match n with
  | O => []
  | S n' => let x := next_word win in x :: expand n' (tl win ++ [x])
  end.

Definition schedule (block : list Z) : list Z :=
  let w16 := words_of_bytes block in w16 ++ expand 48 w16.

Definition round (st : state) (kw : Z * Z) : state :=
  let '(k, w) := kw in
  let t1 := add32 (add32 (add32 (s_h st) (bsig1 (s_e st)))
                         (add32 (Ch (s_e st) (s_f st) (s_g st)) k)) w in
  let t2 := add32 (bsig0 (s_a st)) (Maj (s_a st) (s_b st) (s_c st)) in
  mkState (add32 t1 t2) (s_a st) (s_b st) (s_c st)
          (add32 (s_d st) t1) (s_e st) (s_f st) (s_g st).

Definition compress (st : state) (block : list Z) : state :=
  let r := fold_left round (combine round_constants (schedule block)) st in
  mkState (add32 (s_a st) (s_a r)) (add32 (s_b st) (s_b r))
          (add32 (s_c st) (s_c r)) (add32 (s_d st) (s_d r))
          (add32 (s_e st) (s_e r)) (add32 (s_f st) (s_f r))
          (add32 (s_g st) (s_g r)) (add32 (s_h st) (s_h r)).

(** Padding: a one bit, zeros up to 56 mod 64, the bit length on 64 bits. *)
Definition length_bytes (bits : Z) : list Z :=
  map (fun i => (bits / 2 ^ (8 * i)) mod 256) [7; 6; 5; 4; 3; 2; 1; 0].

Definition pad (msg : list Z) : list Z :=
  let n := Z.of_nat (List.length msg) in
  msg ++ [128] ++ repeat 0 (Z.to_nat ((55 - n) mod 64))
      ++ length_bytes ((8 * n) mod 2 ^ 64).

Fixpoint process (fuel : nat) (st : state) (l : list Z) : state :=
  match fuel with
  | O => st
  | S fuel' =>
      match l with
      | [] => st
      | _ => process fuel' (compress st (firstn 64 l)) (skipn 64 l)
      end
  end.

Definition digest_words (st : state) : list Z :=
  [ s_a st; s_b st; s_c st; s_d st; s_e st; s_f st; s_g st; s_h st ].

Definition digest_list (msg : list Z) : list Z :=
  let p := pad msg in
  flat_map bytes_of_word (digest_words (process (List.length p) initial_state p)).

(** [hashlib.sha256(data).digest()] *)
Definition digest (data : bytes) : bytes := Py.of_list (digest_list (Py.to_list data)).

End SHA256.

(** ** hmac.new(key, msg, hashlib.sha256).digest() (RFC 2104) *)

Module HMAC.

Definition block_size : nat := 64.

(** Keys longer than a block are hashed first; the key is then filled
    with zero bytes up to the block size. *)
Definition key_block (key : list Z) : list Z :=
  let k := if (block_size <? List.length key)%nat then SHA256.digest_list key else key in
  k ++ repeat 0 (block_size - List.length k)%nat.

Definition digest_list (key msg : list Z) : list Z :=
  let kb := key_block key in
  let inner := SHA256.digest_list (map (Z.lxor 54) kb ++ msg) in
  SHA256.digest_list (map (Z.lxor 92) kb ++ inner).

Definition digest (key msg : bytes) : bytes :=
  Py.of_list (digest_list (Py.to_list key) (Py.to_list msg)).

End HMAC.

(** ** base64.urlsafe_b64encode *)

Module Base64.

Definition alphabet : list ascii :=
  list_ascii_of_string
    "ABCDEFGHIJKLMNOPQRSTUVWXYZabcdefghijklmnopqrstuvwxyz0123456789-_".

Definition sextet (n : Z) : ascii := nth (Z.to_nat (n mod 64)) alphabet "="%char.

Fixpoint encode_list (l : list Z) : string :=
  match l with
  | [] => EmptyString
  | [a] =>
      let n := a * 65536 in
      String (sextet (n / 262144)) (String (sextet (n / 4096)) "==")
  | [a; b] =>
      let n := a * 65536 + b * 256 in
      String (sextet (n / 262144)) (String (sextet (n / 4096))
        (String (sextet (n / 64)) "="))
  | a :: b :: c :: rest =>
      let n := a * 65536 + b * 256 + c in
      String (sextet (n / 262144)) (String (sextet (n / 4096))
        (String (sextet (n / 64)) (String (sextet n) (encode_list rest))))
  end.

Definition urlsafe_b64encode (b : bytes) : bytes := encode_list (Py.to_list b).

End Base64.

(** ** bson.ObjectId

    [ObjectId(s)] for a [str] of 24 characters is [bytes.fromhex(s)],
    which reads pairs of hexadecimal digits (either case) and skips ASCII
    whitespace before a pair and at the end; any other string raises
    [InvalidId].  The bytes read are kept as they are, twelve of them
    when no whitespace was skipped.  [str(oid)] is the lower-case
    hexadecimal spelling. *)

Module Bson.

Definition ObjectId := bytes.

Definition hexval (c : ascii) : option Z :=
  let n := Py.ord c in
  if (48 <=? n) && (n <=? 57) then Some (n - 48)
  else if (97 <=? n) && (n <=? 102) then Some (n - 87)
  else if (65 <=? n) && (n <=? 70) then Some (n - 55)
  else None.

(** Space, tab, line feed, vertical tab, form feed, carriage return. *)
Definition isspace (c : ascii) : bool :=
  let n := Py.ord c in (n =? 32) || ((9 <=? n) && (n <=? 13)).

(** [bytes.fromhex(s)]; [None] stands for [ValueError]. *)
Fixpoint fromhex (s : str) : option (list Z) :=
  match s with
  | EmptyString => Some []
  | String c rest =>
      if isspace c then fromhex rest
      else
        match rest with
        | EmptyString => None
        | String lo rest' =>
            match hexval c, hexval lo, fromhex rest' with
            | Some x, Some y, Some l => Some (16 * x + y :: l)
            | _, _, _ => None
            end
        end
  end.

(** [ObjectId(s)]; [None] stands for the [InvalidId] exception. *)
Definition ObjectId_of_str (s : str) : option ObjectId :=
  if (String.length s =? 24)%nat then option_map Py.of_list (fromhex s) else None.

(** [str(oid)] *)
Definition str_of_ObjectId (o : ObjectId) : str := Py.hex o.

(** The value of an [_id] field: an [ObjectId] as stored, or the string
    an endpoint replaces it with before returning the document. *)
Inductive id_value : Type :=
| IdObject (o : ObjectId)
| IdString (s : str).

Definition id_matches (o : ObjectId) (v : id_value) : bool :=
  match v with
  | IdObject o' => String.eqb o' o
  | IdString _ => false
  end.

Definition stringify (v : id_value) : id_value :=
  match v with
  | IdObject o => IdString (str_of_ObjectId o)
  | IdString s => IdString s
  end.

End Bson.

(** ** Documents and collections *)

Module Member.
Record t : Type := mk
  { _id : Bson.id_value;
    name : str;
    present : bool;
    last_in : option datetime;
    last_out : option datetime;
    created_at : datetime;
    updated_at : datetime }.
End Member.

Module Attendance.
Record t : Type := mk
  { _id : Bson.id_value;
    member_id : str;
    action : str;
    timestamp : datetime;
    created_at : datetime;
    updated_at : datetime }.

(** [r["_id"] = str(r["_id"])] *)
Definition stringify_id (r : t) : t :=
  mk (Bson.stringify (_id r)) (member_id r) (action r) (timestamp r)
     (created_at r) (updated_at r).
End Attendance.

(** The [upd] dictionary of [scan2]: the keys a [$set] may carry. *)
Module Upd.
Record t : Type := mk
  { updated_at : option datetime;
    present : option bool;
    last_in : option datetime;
    last_out : option datetime }.

Definition or_else {A} (new old : option A) : option A :=
  match new with Some _ => new | None => old end.

(** [d.update(e)]: the keys of [e] override those of [d]. *)
Definition update (d e : t) : t :=
  mk (or_else (updated_at e) (updated_at d)) (or_else (present e) (present d))
     (or_else (last_in e) (last_in d)) (or_else (last_out e) (last_out d)).
End Upd.

Record Database : Type := mkDatabase
  { member : list Member.t;          (* db["member"] *)
    attendance : list Attendance.t   (* db["attendance"] *) }.

(** ** pymongo operations used by the endpoints *)

Module Mongo.

(** A [datetime] as the store keeps it: whole milliseconds, rounded
    down. *)
Definition bson_datetime (t : datetime) : datetime := t / 1000 * 1000.

(** The documents as encoded for the store. *)
Definition encode_member (m : Member.t) : Member.t :=
  Member.mk (Member._id m) (Member.name m) (Member.present m)
    (option_map bson_datetime (Member.last_in m))
    (option_map bson_datetime (Member.last_out m))
    (bson_datetime (Member.created_at m)) (bson_datetime (Member.updated_at m)).

Definition encode_attendance (r : Attendance.t) : Attendance.t :=
  Attendance.mk (Attendance._id r) (Attendance.member_id r) (Attendance.action r)
    (bson_datetime (Attendance.timestamp r)) (bson_datetime (Attendance.created_at r))
    (bson_datetime (Attendance.updated_at r)).

(** [{"$set": u}] applied to a stored document. *)
Definition set_fields (u : Upd.t) (m : Member.t) : Member.t :=
  Member.mk (Member._id m) (Member.name m)
    (match Upd.present u with Some b => b | None => Member.present m end)
    (match Upd.last_in u with
     | Some t => Some (bson_datetime t)
     | None => Member.last_in m
     end)
    (match Upd.last_out u with
     | Some t => Some (bson_datetime t)
     | None => Member.last_out m
     end)
    (Member.created_at m)
    (match Upd.updated_at u with
     | Some t => bson_datetime t
     | None => Member.updated_at m
     end).

(** [find_one({"_id": o})] *)
Definition find_one (o : Bson.ObjectId) (l : list Member.t) : option Member.t :=
  find (fun m => Bson.id_matches o (Member._id m)) l.

(** [update_one({"_id": o}, {"$set": u})]: the first matching document is
    updated; without a match nothing is written (no upsert). *)
Fixpoint update_one (o : Bson.ObjectId) (u : Upd.t) (l : list Member.t) : list Member.t :=
  match l with
  | [] => []
  | m :: rest =>
      if Bson.id_matches o (Member._id m) then set_fields u m :: rest
      else m :: update_one o u rest
  end.

(** [insert_one(doc)]: the encoded document goes last in natural
    order. *)
Definition insert_member (doc : Member.t) (l : list Member.t) : list Member.t :=
  l ++ [encode_member doc].

Definition insert_attendance (doc : Attendance.t) (l : list Attendance.t)
  : list Attendance.t :=
  l ++ [encode_attendance doc].

(** [find({"member_id": id})] *)
Definition find_by_member (id : str) (l : list Attendance.t) : list Attendance.t :=
  filter (fun r => String.eqb (Attendance.member_id r) id) l.

(** [.sort("timestamp", -1)]: descending; documents with equal
    timestamps keep their natural order. *)
Fixpoint insert_desc (x : Attendance.t) (l : list Attendance.t) : list Attendance.t :=
  match l with
  | [] => [x]
  | y :: rest =>
      if Attendance.timestamp y <=? Attendance.timestamp x then x :: l
      else y :: insert_desc x rest
  end.

Definition sort_desc (l : list Attendance.t) : list Attendance.t :=
  fold_right insert_desc [] l.

(** [.limit(n)]: a limit of 0 is no limit; a negative limit is its
    absolute value (one batch). *)
Definition limit {A} (n : Z) (l : list A) : list A :=
  if n =? 0 then l else firstn (Z.to_nat (Z.abs n)) l.

End Mongo.

(** ** Endpoints as state transformers

    An endpoint body runs on the database and either returns or raises;
    writes made before a raise stay in the database. *)

Definition M (A : Type) : Type := Database -> result A * Database.

Definition ret {A} (a : A) : M A := fun d => (Ok a, d).
Definition raise {A} (e : exn) : M A := fun d => (Raise e, d).
Definition lift {A} (r : result A) : M A := fun d => (r, d).
Definition bind {A B} (c : M A) (k : A -> M B) : M B :=
  fun d => match c d with
           | (Ok a, d') => k a d'
           | (Raise e, d') => (Raise e, d')
           end.
Definition get : M Database := fun d => (Ok d, d).
Definition put (d' : Database) : M unit := fun _ => (Ok tt, d').

Notation "x <- c ;; k" := (bind c (fun x => k))
  (at level 61, c at next level, right associativity) : py_scope.
Notation "c ;; k" := (bind c (fun _ => k))
  (at level 61, right associativity) : py_scope.

(** [if db is None: raise HTTPException(500, ...)], then the body. *)
Definition with_db {A} (body : M A) (db : option Database)
  : result A * option Database :=
  match db with
  | None => (Raise (HTTPException 500 "Database not configured"), None)
  | Some d => let '(r, d') := body d in (r, Some d')
  end.

(** [oid] *)
Definition oid (id_str : str) : result Bson.ObjectId :=
  match Bson.ObjectId_of_str id_str with
  | Some o => Ok o
  | None => Raise (HTTPException 400 "Invalid member id")
  end.

(** ** QR token generation (time-bound) *)

Record Config : Type := mkConfig
  { SECRET : str;                 (* os.getenv("QR_SECRET", "dev-secret") *)
    TOKEN_WINDOW_SECONDS : Z }.

Definition default_config : Config := mkConfig "dev-secret" 10.

(** [f"{member_id}:{action}:{ts}"] *)
Definition format_msg (member_id action : str) (ts : Z) : str :=
  (member_id ++ ":" ++ action ++ ":" ++ Py.str_of_int ts)%string.

(** [generate_token(member_id, action, now)]; [clock] is what
    [datetime.now(timezone.utc)] returns when [now] is not given. *)
Definition generate_token (cfg : Config) (clock : datetime)
    (member_id action : str) (now : option datetime) : result str :=
  if negb (Py.in2 action "IN" "OUT") then Raise (HTTPException 400 "Invalid action")
  else
    let now := match now with Some t => t | None => clock end in
    let? ts := Py.floordiv (Py.int_timestamp now) (TOKEN_WINDOW_SECONDS cfg) in
    let? msg := Py.encode (format_msg member_id action ts) in
    let? key := Py.encode (SECRET cfg) in
    let sig := HMAC.digest key msg in
    let token := Py.rstrip "=" (Py.decode (Base64.urlsafe_b64encode sig)) in
    Ok token.

(** [hmac.compare_digest] on two [str]: both must be ASCII-only. *)
Definition compare_digest (a b : str) : result bool :=
  if Py.isascii a && Py.isascii b then Ok (String.eqb a b) else Raise TypeError.

(** The [for ts in (...)] loop of [verify_token]. *)
Fixpoint verify_loop (cfg : Config) (member_id action token : str) (slices : list Z)
  : result bool :=
  match slices with
  | [] => Ok false
  | ts :: rest =>
      let? msg := Py.encode (format_msg member_id action ts) in
      let? key := Py.encode (SECRET cfg) in
      let sig := HMAC.digest key msg in
      let expected := Py.rstrip "=" (Py.decode (Base64.urlsafe_b64encode sig)) in
      let? hit := compare_digest expected token in
      if hit then Ok true else verify_loop cfg member_id action token rest
  end.

(** [verify_token(member_id, action, token)] with the clock read made
    explicit. *)
Definition verify_token (cfg : Config) (clock : datetime)
    (member_id action token : str) : result bool :=
  let now := clock in
  let? current_slice := Py.floordiv (Py.int_timestamp now) (TOKEN_WINDOW_SECONDS cfg) in
  verify_loop cfg member_id action token [current_slice; current_slice - 1].

(** ** Members endpoints *)

Module MemberCreate.
Record t : Type := mk { name : str }.
End MemberCreate.

(** [create_member]: [clock1], [clock2] are the two clock reads and
    [new_id] the identifier the store assigns. *)
Definition create_member (clock1 clock2 : datetime) (new_id : Bson.ObjectId)
    (payload : MemberCreate.t) : option Database -> result Member.t * option Database :=
  with_db (
    let doc := Member.mk (Bson.IdObject new_id) (MemberCreate.name payload)
                 false None None clock1 clock2 in
    d <- get ;;
    put (mkDatabase (Mongo.insert_member doc (member d)) (attendance d)) ;;
    ret (Member.mk (Bson.IdString (Bson.str_of_ObjectId new_id)) (Member.name doc)
           (Member.present doc) (Member.last_in doc) (Member.last_out doc)
           (Member.created_at doc) (Member.updated_at doc))).

Module QrPair.
Record t : Type := mk
  { in_action : str; in_token : str;
    out_action : str; out_token : str;
    window_seconds : Z }.
End QrPair.

(** [get_member_qrs]: the member is looked up before any token is made. *)
Definition get_member_qrs (cfg : Config) (clock_in clock_out : datetime)
    (member_id : str) : option Database -> result QrPair.t * option Database :=
  with_db (
    o <- lift (oid member_id) ;;
    d <- get ;;
    match Mongo.find_one o (member d) with
    | None => raise (HTTPException 404 "Member not found")
    | Some _ =>
        tin <- lift (generate_token cfg clock_in member_id "IN" None) ;;
        tout <- lift (generate_token cfg clock_out member_id "OUT" None) ;;
        ret (QrPair.mk "IN" tin "OUT" tout (TOKEN_WINDOW_SECONDS cfg))
    end).

(** ** Scanning endpoint *)

Module AttendanceScan2.
Record t : Type := mk { member_id : str; action : str; token : str }.
End AttendanceScan2.

(** [scan2]: [clock_verify] is the clock read inside [verify_token],
    [clock_now] the one that stamps the attendance record, [new_id] the
    identifier the store assigns to it. *)
Definition scan2 (cfg : Config) (clock_verify clock_now : datetime)
    (new_id : Bson.ObjectId) (payload : AttendanceScan2.t)
  : option Database -> result (list (str * str)) * option Database :=
  with_db (
    let member_id := AttendanceScan2.member_id payload in
    let action := AttendanceScan2.action payload in
    let token := AttendanceScan2.token payload in
    if negb (Py.in2 action "IN" "OUT") then raise (HTTPException 400 "Invalid action")
    else
      (* verify *)
      ok <- lift (verify_token cfg clock_verify member_id action token) ;;
      if negb ok then raise (HTTPException 401 "Invalid or expired token")
      else
        (* record attendance *)
        let now := clock_now in
        let att := Attendance.mk (Bson.IdObject new_id) member_id action now now now in
        d <- get ;;
        put (mkDatabase (member d) (Mongo.insert_attendance att (attendance d))) ;;
        (* update member presence *)
        let upd := Upd.mk (Some now) None None None in
        let upd :=
          if String.eqb action "IN"
          then Upd.update upd (Upd.mk None (Some true) (Some now) None)
          else Upd.update upd (Upd.mk None (Some false) None (Some now)) in
        o <- lift (oid member_id) ;;
        d <- get ;;
        put (mkDatabase (Mongo.update_one o upd (member d)) (attendance d)) ;;
        ret [("status", "ok")]).

(** [member_attendance] *)
Definition member_attendance (member_id : str) (limit : Z)
  : option Database -> result (list Attendance.t) * option Database :=
  with_db (
    d <- get ;;
    let records :=
      Mongo.limit limit (Mongo.sort_desc (Mongo.find_by_member member_id (attendance d))) in
    (* for r in records: r["_id"] = str(r["_id"]) *)
    let records := map Attendance.stringify_id records in
    ret records).

(** ** Remaining endpoints *)

(** [read_root] *)
Definition read_root : list (str * str) := [("message", "Attendance Backend Running")].

(** [list_members]: every member document with its [_id] as text and a
    [status] computed from the presence flag. *)
Module MemberListed.
Record t : Type := mk { doc : Member.t; status : str }.
End MemberListed.

Definition list_members
  : option Database -> result (list MemberListed.t) * option Database :=
  with_db (
    d <- get ;;
    let members := member d in
    ret (map (fun m =>
                MemberListed.mk
                  (Member.mk (Bson.stringify (Member._id m)) (Member.name m)
                     (Member.present m) (Member.last_in m) (Member.last_out m)
                     (Member.created_at m) (Member.updated_at m))
                  (if Member.present m then "Present" else "Absent"))
             members)).

Module AttendanceScan.
Record t : Type := mk { token : str; action : str }.
End AttendanceScan.

(** [scan]: the first scanning endpoint, which has no member identifier
    to verify against and refuses every request. *)
Definition scan (payload : AttendanceScan.t)
  : option Database -> result (list (str * str)) * option Database :=
  with_db (
    let action := AttendanceScan.action payload in
    raise (HTTPException 400 "Include member_id in request body as 'member_id'.")).

(** * Specification-level definitions

    Names for what the code computes, used to state the properties, and
    small databases to evaluate the endpoints on. *)

(** Window index of a clock reading. *)
Definition window_index (cfg : Config) (now : datetime) : Z :=
  Py.int_timestamp now / TOKEN_WINDOW_SECONDS cfg.

(** The token text of a digest: lines 125 and 135 of the source. *)
Definition token_of_digest (sig : bytes) : str :=
  Py.rstrip "=" (Py.decode (Base64.urlsafe_b64encode sig)).

(** The token both functions compute for a window index, when the
    secret and the message can be encoded. *)
Definition expected_token (cfg : Config) (member_id action : str) (ts : Z) : str :=
  token_of_digest (HMAC.digest (SECRET cfg) (format_msg member_id action ts)).

(** The two actions of a scan. *)
Definition valid_action (action : str) : Prop := action = "IN" \/ action = "OUT".

(** A string [encode] accepts: it holds no surrogate. *)
Definition encodable (s : str) : Prop := Py.has_surrogate s = false.

(** The time a token is issued at: the [now] argument, else the clock. *)
Definition issue_time (clock : datetime) (now : option datetime) : datetime :=
  match now with Some t => t | None => clock end.

(** Clock readings whose seconds the double keeps exactly: less than
    2^34 seconds from the epoch, that is before 2514-05-30T01:53:04Z. *)
Definition exact_clock (now : datetime) : Prop :=
  -17179869184000000 < now < 17179869184000000.

(** [c in s] for a character. *)
Fixpoint has_char (c : ascii) (s : str) : bool :=
  match s with
  | EmptyString => false
  | String x s' => Ascii.eqb x c || has_char c s'
  end.

(** The values a byte takes. *)
Definition is_byte (z : Z) : Prop := 0 <= z < 256.

(** The encoding without its padding characters. *)
Fixpoint encode_body (l : list Z) : string :=
  match l with
  | [] => EmptyString
  | [a] =>
      let n := a * 65536 in
      String (Base64.sextet (n / 262144)) (String (Base64.sextet (n / 4096)) "")
  | [a; b] =>
      let n := a * 65536 + b * 256 in
      String (Base64.sextet (n / 262144)) (String (Base64.sextet (n / 4096))
        (String (Base64.sextet (n / 64)) ""))
  | a :: b :: c :: rest =>
      let n := a * 65536 + b * 256 + c in
      String (Base64.sextet (n / 262144)) (String (Base64.sextet (n / 4096))
        (String (Base64.sextet (n / 64)) (String (Base64.sextet n) (encode_body rest))))
  end.

(** Position of a character in the alphabet. *)
Fixpoint index_of (c : ascii) (l : list ascii) : Z :=
  match l with
  | [] => 0
  | x :: rest => if Ascii.eqb x c then 0 else 1 + index_of c rest
  end.

(** The characters of the URL-safe alphabet. *)
Definition urlsafe_char (c : ascii) : bool :=
  existsb (Ascii.eqb c) Base64.alphabet.

(** [all(urlsafe_char(c) for c in s)] *)
Fixpoint all_urlsafe (s : str) : bool :=
  match s with
  | EmptyString => true
  | String c s' => urlsafe_char c && all_urlsafe s'
  end.

(** The [upd] dictionary [scan2] builds for an action at time [now]. *)
Definition scan_upd (action : str) (now : datetime) : Upd.t :=
  if String.eqb action "IN"
  then Upd.mk (Some now) (Some true) (Some now) None
  else Upd.mk (Some now) (Some false) None (Some now).

(** The attendance record [scan2] leaves in the store. *)
Definition scan_att (new_id : Bson.ObjectId) (member_id action : str) (now : datetime)
  : Attendance.t :=
  Mongo.encode_attendance (Attendance.mk (Bson.IdObject new_id) member_id action now now now).

(** The error [oid] raises. *)
Definition invalid_member_id : exn := HTTPException 400 "Invalid member id".

(** The document [create_member] leaves in the store. *)
Definition new_member (new_id : Bson.ObjectId) (name : str) (clock1 clock2 : datetime)
  : Member.t :=
  Mongo.encode_member (Member.mk (Bson.IdObject new_id) name false None None clock1 clock2).

(** An attendance record whose member identifier denotes [o]. *)
Definition record_of (o : Bson.ObjectId) (r : Attendance.t) : bool :=
  match Bson.ObjectId_of_str (Attendance.member_id r) with
  | Some o' => String.eqb o' o
  | None => false
  end.

(** The presence flag the log prescribes for [o]: replaying the log in
    order, the last record of [o] decides, and a member without records
    is absent. *)
Definition flag_of_log (o : Bson.ObjectId) (log : list Attendance.t) : bool :=
  fold_left (fun flag r => if record_of o r then String.eqb (Attendance.action r) "IN" else flag)
            log false.

(** The stored presence flags agree with the log, and no two member
    documents share an identifier. *)
Definition consistent (d : Database) : Prop :=
  NoDup (map Member._id (member d)) /\
  forall m o, In m (member d) -> Member._id m = Bson.IdObject o ->
              Member.present m = flag_of_log o (attendance d).


(** One registered member, identifier 0102030405060708090a0bff. *)
Definition alice_id : Bson.ObjectId := Py.of_list [1; 2; 3; 4; 5; 6; 7; 8; 9; 10; 11; 255].

Definition alice : Member.t :=
  Member.mk (Bson.IdObject alice_id) "Alice" false None None 900000000 900000000.

Definition db_alice : Database := mkDatabase [alice] [].

Definition fresh_id : Bson.ObjectId := Py.of_list [15; 14; 13; 12; 11; 10; 9; 8; 7; 6; 5; 4].

Definition event_early : Attendance.t :=
  Attendance.mk (Bson.IdObject fresh_id) "0102030405060708090a0bff" "IN"
    1005000000 1005000000 1005000000.

Definition event_late : Attendance.t :=
  Attendance.mk (Bson.IdObject alice_id) "0102030405060708090a0bff" "OUT"
    1006000000 1006000000 1006000000.


(** A second database: Alice has checked in and out before, Bob
    (identifier abcdef010203040506070809) is present. *)
Definition bob_id : Bson.ObjectId := Py.of_list [171; 205; 239; 1; 2; 3; 4; 5; 6; 7; 8; 9].

Definition alice_seen : Member.t :=
  Member.mk (Bson.IdObject alice_id) "Alice" true (Some 990000000) (Some 980000000)
    900000000 990000000.

Definition bob : Member.t :=
  Member.mk (Bson.IdObject bob_id) "Bob" true (Some 995000000) (Some 970000000)
    910000000 995000000.

Definition db_club : Database := mkDatabase [alice_seen; bob] [event_early].

(** The secret [os.getenv] returns for a variable holding the single byte
    FF (the surrogate U+DCFF), and the identifier made of U+D800. *)
Definition secret_ff : str := String "237" (String "179" (String "191" "")).

Definition id_d800 : str := String "237" (String "160" (String "128" "")).

(** * Properties *)

(** ** Known answers of the library code *)

(** FIPS 180-4 example digests, and a message longer than one block. *)
Example sha256_known_answers :
  Py.hex (SHA256.digest "")
    = "e3b0c44298fc1c149afbf4c8996fb92427ae41e4649b934ca495991b7852b855" /\
  Py.hex (SHA256.digest "abc")
    = "ba7816bf8f01cfea414140de5dae2223b00361a396177a9cb410ff61f20015ad" /\
  Py.hex (SHA256.digest (string_of_list_ascii (repeat "a"%char 200)))
    = "c2a908d98f5df987ade41b5fce213067efbcc21ef2240212a41e54b5e7c28ae5".
Proof. split; [|split]; vm_compute; reflexivity. Qed.

(** RFC 4231, test case 2. *)
Example hmac_sha256_known_answer :
  Py.hex (HMAC.digest "Jefe" "what do ya want for nothing?")
    = "5bdcc146bf60754e6a042426089575c75a003f089d2739839dec58b964ec3843".
Proof. vm_compute; reflexivity. Qed.

(** RFC 4648 examples, with the URL-safe alphabet on bytes 251, 255. *)
Example urlsafe_b64encode_known_answers :
  Base64.urlsafe_b64encode "foobar" = "Zm9vYmFy" /\
  Base64.urlsafe_b64encode "fooba" = "Zm9vYmE=" /\
  Base64.urlsafe_b64encode "foob" = "Zm9vYg==" /\
  Base64.urlsafe_b64encode (Py.of_list [251; 255]) = "-_8=".
Proof. repeat split. Qed.

(** [int(d.timestamp())] on both sides of the epoch, and where the double
    starts to round the last microseconds of a second up (2^34 s). *)
Example int_timestamp_known_answers :
  Py.int_timestamp 1000999999 = 1000 /\
  Py.int_timestamp (-500000) = 0 /\
  Py.int_timestamp (-1500000) = -1 /\
  Py.int_timestamp 17179869183999999 = 17179869183 /\
  Py.int_timestamp 17179869184999999 = 17179869185 /\
  Py.int_timestamp 34359738359999998 = 34359738359 /\
  Py.int_timestamp 34359738369999997 = 34359738370.
Proof. repeat split; vm_compute; reflexivity. Qed.

(** [bytes.fromhex]: whitespace before a pair and at the end is skipped,
    inside a pair it is refused. *)
Example fromhex_known_answers :
  Bson.fromhex "0102 0304" = Some [1; 2; 3; 4] /\
  Bson.fromhex " 0a0B " = Some [10; 11] /\
  Bson.fromhex "0 1" = None /\
  Bson.fromhex "0g" = None /\
  Bson.fromhex "012" = None.
Proof. repeat split. Qed.

(** [encode] refuses the surrogates and nothing else of the D-block. *)
Example encode_known_answers :
  Py.encode secret_ff = Raise UnicodeEncodeError /\
  Py.encode id_d800 = Raise UnicodeEncodeError /\
  Py.encode (String "237" (String "159" (String "191" "")))
    = Ok (String "237" (String "159" (String "191" ""))) /\
  Py.encode "dev-secret" = Ok "dev-secret".
Proof. repeat split. Qed.

(** ** The seconds of a clock reading *)

Lemma round_half_even_bounds n d :
  0 < d -> n / d <= Py.round_half_even n d <= n / d + 1 /\
           (Py.round_half_even n d = n / d + 1 -> d <= 2 * (n mod d)).
Proof.
  intros Hd. unfold Py.round_half_even.
  destruct (Z.ltb_spec (2 * (n mod d)) d); [lia|].
  destruct (Z.ltb_spec d (2 * (n mod d))); [lia|].
  destruct (Z.even (n / d)); lia.
Qed.

(** Below 2^34 seconds the double keeps the whole seconds: its spacing
    is under two microseconds there. *)
Lemma seconds_double_exact a :
  0 < a < 17179869184000000 ->
  fst (Py.seconds_double a) / 2 ^ snd (Py.seconds_double a) = a / 1000000.
Proof.
  intros Ha. unfold Py.seconds_double. cbn [fst snd].
  set (k0 := 71 - Z.log2 a).
  set (k := if a * 2 ^ k0 / 1000000 <? 2 ^ 52 then k0 + 1 else k0).
  assert (Hlog : Z.log2 a <= 53).
  { assert (Z.log2 a < 54); [|lia]. apply Z.log2_lt_pow2; lia. }
  assert (Hk : 19 <= k).
  { unfold k. destruct (Z.ltb_spec (a * 2 ^ k0 / 1000000) (2 ^ 52)) as [Hlt | Hge];
      [unfold k0; lia|].
    destruct (Z.eq_dec k0 18) as [E | E]; [|unfold k0 in *; lia].
    exfalso. rewrite E in Hge.
    assert (a * 2 ^ 18 / 1000000 < 2 ^ 52); [|lia].
    apply Z.div_lt_upper_bound; lia. }
  clearbody k. clear k0.
  set (P := 2 ^ k).
  assert (HP : 524288 <= P).
  { unfold P. change 524288 with (2 ^ 19). apply Z.pow_le_mono_r; lia. }
  clearbody P.
  pose proof (Z.div_mod a 1000000 ltac:(lia)) as Hdm.
  pose proof (Z.mod_pos_bound a 1000000 ltac:(lia)) as Hf.
  set (s := a / 1000000) in *. set (f := a mod 1000000) in *.
  assert (Hn : a * P = s * P * 1000000 + f * P) by lia.
  destruct (round_half_even_bounds (a * P) 1000000 ltac:(lia)) as [Hb Hup].
  rewrite Hn in Hb, Hup |- *.
  rewrite Z.div_add_l in Hb, Hup by lia.
  replace ((s * P * 1000000 + f * P) mod 1000000) with ((f * P) mod 1000000) in Hup
    by (now rewrite (Z.add_comm (s * P * 1000000)), Z_mod_plus_full).
  set (m := Py.round_half_even (s * P * 1000000 + f * P) 1000000) in *.
  pose proof (Z.div_mod (f * P) 1000000 ltac:(lia)) as Hdm2.
  pose proof (Z.mod_pos_bound (f * P) 1000000 ltac:(lia)) as Hr.
  set (q := f * P / 1000000) in *. set (r := (f * P) mod 1000000) in *.
  assert (HfP : f * P <= 999999 * P) by nia.
  assert (0 <= f * P) by nia.
  symmetry. apply (Z.div_unique m P s (m - s * P)); [|lia].
  left. split; [lia|].
  destruct (Z.eq_dec m (s * P + q + 1)) as [E | E]; [specialize (Hup E)|]; lia.
Qed.

(** For such clock readings [int(now.timestamp())] is the number of
    whole seconds, truncated towards zero. *)
Lemma int_timestamp_exact now :
  exact_clock now -> Py.int_timestamp now = Z.quot now 1000000.
Proof.
  unfold exact_clock. intros Hn. unfold Py.int_timestamp.
  destruct (Z.eqb_spec now 0) as [-> | Hnz]; [reflexivity|].
  destruct (Py.seconds_double (Z.abs now)) as [m k] eqn:E.
  pose proof (seconds_double_exact (Z.abs now) ltac:(lia)) as H.
  rewrite E in H. cbn [fst snd] in H. rewrite H.
  clear E H. Z.to_euclidean_division_equations. nia.
Qed.

(** ** Window arithmetic *)

Lemma int_timestamp_mono now now' :
  exact_clock now -> exact_clock now' ->
  now <= now' -> Py.int_timestamp now <= Py.int_timestamp now'.
Proof.
  intros E E' H. rewrite !int_timestamp_exact by assumption.
  Z.to_euclidean_division_equations. lia.
Qed.

Lemma int_timestamp_step now now' w :
  exact_clock now -> exact_clock now' ->
  now <= now' < now + w * 1000000 ->
  Py.int_timestamp now' <= Py.int_timestamp now + w.
Proof.
  intros E E' H. rewrite !int_timestamp_exact by assumption.
  Z.to_euclidean_division_equations. lia.
Qed.

Lemma int_timestamp_nonneg now :
  exact_clock now -> 0 <= now -> Py.int_timestamp now = now / 1000000.
Proof.
  intros E H. rewrite int_timestamp_exact by assumption.
  Z.to_euclidean_division_equations. lia.
Qed.

(** Within one window length the index stays or advances by one. *)
Lemma window_index_same_or_next cfg now now' :
  exact_clock now -> exact_clock now' ->
  now <= now' < now + TOKEN_WINDOW_SECONDS cfg * 1000000 ->
  window_index cfg now' = window_index cfg now \/
  window_index cfg now' - 1 = window_index cfg now.
Proof.
  intros E E' [Hle Hlt]. unfold window_index.
  pose proof (int_timestamp_mono _ _ E E' Hle) as Hm.
  pose proof (int_timestamp_step _ _ _ E E' (conj Hle Hlt)) as Hs.
  set (q := Py.int_timestamp now) in *. set (q' := Py.int_timestamp now') in *.
  set (w := TOKEN_WINDOW_SECONDS cfg) in *.
  assert (0 < w) by lia.
  assert (q / w <= q' / w) by (apply Z.div_le_mono; lia).
  assert (q' / w <= (q + w) / w) by (apply Z.div_le_mono; lia).
  replace (q + w) with (q + 1 * w) in * by lia.
  rewrite Z.div_add in * by lia. lia.
Qed.

(** Two window lengths after an issue time whose seconds are not rounded
    up by the truncation, both indices examined by the verifier are past
    the issuing index. *)
Lemma window_index_expired cfg now now'' :
  exact_clock now -> exact_clock now'' ->
  0 < TOKEN_WINDOW_SECONDS cfg ->
  0 <= now \/ now mod 1000000 = 0 ->
  now + 2 * TOKEN_WINDOW_SECONDS cfg * 1000000 <= now'' ->
  window_index cfg now + 2 <= window_index cfg now''.
Proof.
  intros E E'' Hw H0 H. unfold window_index.
  set (w := TOKEN_WINDOW_SECONDS cfg) in *.
  assert (Hq : Py.int_timestamp now + 2 * w <= Py.int_timestamp now'').
  { rewrite !int_timestamp_exact by assumption.
    Z.to_euclidean_division_equations. nia. }
  replace (Py.int_timestamp now / w + 2) with ((Py.int_timestamp now + 2 * w) / w).
  - apply Z.div_le_mono; lia.
  - rewrite Z.div_add by lia. lia.
Qed.
(** ** Tokens are ASCII strings *)

Lemma list_ind3 {A} (P : list A -> Prop) :
  P [] -> (forall a, P [a]) -> (forall a b, P [a; b]) ->
  (forall a b c rest, P rest -> P (a :: b :: c :: rest)) ->
  forall l, P l.
Proof.
  intros H0 H1 H2 H3.
  fix IH 1. intros [|a [|b [|c rest]]].
  - exact H0.
  - apply H1.
  - apply H2.
  - apply H3, IH.
Qed.

Lemma sextet_ascii n : Py.is_ascii_char (Base64.sextet n) = true.
Proof.
  unfold Base64.sextet.
  assert (Hall : forallb Py.is_ascii_char Base64.alphabet = true) by reflexivity.
  rewrite forallb_forall in Hall.
  destruct (nth_in_or_default (Z.to_nat (n mod 64)) Base64.alphabet "="%char) as [Hin | Hd].
  - apply Hall, Hin.
  - rewrite Hd. reflexivity.
Qed.

Lemma encode_list_ascii l : Py.isascii (Base64.encode_list l) = true.
Proof.
  induction l using list_ind3; cbn [Base64.encode_list Py.isascii];
    rewrite ?sextet_ascii; try reflexivity.
  exact IHl.
Qed.

Lemma rstrip_ascii c s : Py.isascii s = true -> Py.isascii (Py.rstrip c s) = true.
Proof.
  induction s as [|x s IH]; cbn [Py.rstrip Py.isascii]; [reflexivity|].
  intros H. apply andb_true_iff in H as [Hx Hs]. specialize (IH Hs).
  destruct (Py.rstrip c s) as [|y r].
  - destruct (Ascii.eqb x c); cbn [Py.isascii]; [reflexivity | now rewrite Hx].
  - cbn [Py.isascii] in *. now rewrite Hx, IH.
Qed.

Lemma expected_token_ascii cfg member_id action ts :
  Py.isascii (expected_token cfg member_id action ts) = true.
Proof.
  unfold expected_token, token_of_digest, Py.decode, Base64.urlsafe_b64encode.
  apply rstrip_ascii, encode_list_ascii.
Qed.

(** ** Strings that can be encoded *)

Lemma has_surrogate_sep x y :
  Py.has_surrogate (x ++ String ":" y)%string
  = Py.has_surrogate x || Py.has_surrogate y.
Proof.
  assert (H0 : Py.has_surrogate (String ":" y) = Py.has_surrogate y)
    by (destruct y; reflexivity).
  induction x as [|c x IH]; [exact H0|].
  destruct x as [|c' x'].
  - cbn [append]. cbn [Py.has_surrogate] in *. rewrite H0.
    change (160 <=? Py.ord ":") with false. now rewrite andb_false_r.
  - cbn [append] in *. cbn [Py.has_surrogate] in *. rewrite IH.
    now rewrite orb_assoc.
Qed.

Lemma no_char_no_surrogate s :
  has_char "237" s = false -> Py.has_surrogate s = false.
Proof.
  induction s as [|c s IH]; [reflexivity|].
  cbn [has_char]. intros H. apply orb_false_iff in H as [Hc Hs].
  destruct s as [|c' s']; [reflexivity|].
  change (Py.has_surrogate (String c (String c' s')))
    with (((Py.ord c =? 237) && (160 <=? Py.ord c') && (Py.ord c' <=? 191))
          || Py.has_surrogate (String c' s')).
  rewrite (IH Hs).
  apply Ascii.eqb_neq in Hc.
  destruct (Z.eqb_spec (Py.ord c) 237) as [E | E]; [|reflexivity].
  exfalso. apply Hc. unfold Py.ord in E.
  rewrite <- (ascii_N_embedding c).
  replace (N_of_ascii c) with 237%N by lia. reflexivity.
Qed.

Lemma string_of_uint_no_237 d :
  has_char "237" (NilEmpty.string_of_uint d) = false.
Proof. induction d; cbn; auto. Qed.

Lemma str_of_int_encodable n : Py.has_surrogate (Py.str_of_int n) = false.
Proof.
  apply no_char_no_surrogate.
  unfold Py.str_of_int, NilZero.string_of_int, NilZero.string_of_uint.
  pose proof string_of_uint_no_237 as H.
  destruct (Z.to_int n) as [d | d]; cbn [has_char];
    destruct d; first [reflexivity | apply (H (_ d)) | exact (H _)].
Qed.

Lemma format_msg_surrogate member_id action ts :
  Py.has_surrogate (format_msg member_id action ts)
  = Py.has_surrogate member_id || Py.has_surrogate action.
Proof.
  unfold format_msg.
  change (member_id ++ ":" ++ action ++ ":" ++ Py.str_of_int ts)%string
    with (member_id ++ String ":" (action ++ String ":" (Py.str_of_int ts)))%string.
  now rewrite !has_surrogate_sep, str_of_int_encodable, orb_false_r.
Qed.

Lemma valid_action_encodable action : valid_action action -> encodable action.
Proof. intros [-> | ->]; reflexivity. Qed.

Lemma encode_ok s : encodable s -> Py.encode s = Ok s.
Proof. unfold encodable, Py.encode. now intros ->. Qed.

Lemma encode_msg_ok member_id action ts :
  encodable member_id -> encodable action ->
  Py.encode (format_msg member_id action ts) = Ok (format_msg member_id action ts).
Proof.
  unfold encodable. intros Hm Ha. apply encode_ok. unfold encodable.
  now rewrite format_msg_surrogate, Hm, Ha.
Qed.

(** ** What the two token functions compute *)

Lemma in2_valid_action action :
  Py.in2 action "IN" "OUT" = true <-> valid_action action.
Proof.
  unfold Py.in2, valid_action. rewrite orb_true_iff, !String.eqb_eq. reflexivity.
Qed.

Lemma valid_action_dec action : {valid_action action} + {~ valid_action action}.
Proof.
  destruct (Py.in2 action "IN" "OUT") eqn:E.
  - left. now apply in2_valid_action.
  - right. intros H. apply in2_valid_action in H. congruence.
Qed.

Lemma generate_token_valid cfg clock member_id action now :
  valid_action action -> TOKEN_WINDOW_SECONDS cfg <> 0 ->
  encodable member_id -> encodable (SECRET cfg) ->
  generate_token cfg clock member_id action now
  = Ok (expected_token cfg member_id action (window_index cfg (issue_time clock now))).
Proof.
  intros Ha Hw Hm Hs. unfold generate_token.
  pose proof (valid_action_encodable _ Ha) as Hae.
  apply in2_valid_action in Ha. rewrite Ha. cbn [negb].
  unfold Py.floordiv. destruct (Z.eqb_spec (TOKEN_WINDOW_SECONDS cfg) 0); [contradiction|].
  cbn [rbind]. rewrite encode_msg_ok by assumption. cbn [rbind].
  rewrite encode_ok by assumption. reflexivity.
Qed.

Lemma generate_token_invalid cfg clock member_id action now :
  ~ valid_action action ->
  generate_token cfg clock member_id action now
  = Raise (HTTPException 400 "Invalid action").
Proof.
  intros Ha. unfold generate_token.
  destruct (Py.in2 action "IN" "OUT") eqn:E; [|reflexivity].
  apply in2_valid_action in E. contradiction.
Qed.

(** An identifier or a secret that cannot be encoded makes
    [generate_token] raise, whatever the action. *)
Lemma generate_token_encode_error cfg clock member_id action now :
  valid_action action -> TOKEN_WINDOW_SECONDS cfg <> 0 ->
  Py.has_surrogate member_id = true \/ Py.has_surrogate (SECRET cfg) = true ->
  generate_token cfg clock member_id action now = Raise UnicodeEncodeError.
Proof.
  intros Ha Hw Hbad. unfold generate_token.
  apply in2_valid_action in Ha. rewrite Ha. cbn [negb].
  unfold Py.floordiv. destruct (Z.eqb_spec (TOKEN_WINDOW_SECONDS cfg) 0); [contradiction|].
  cbn [rbind]. unfold Py.encode at 1. rewrite format_msg_surrogate.
  destruct (Py.has_surrogate member_id); [reflexivity|].
  destruct (Py.has_surrogate action); [reflexivity|]. cbn [orb rbind].
  unfold Py.encode. destruct Hbad as [H | ->]; [discriminate | reflexivity].
Qed.

Lemma compare_digest_expected cfg member_id action ts token :
  compare_digest (expected_token cfg member_id action ts) token
  = if Py.isascii token
    then Ok (String.eqb (expected_token cfg member_id action ts) token)
    else Raise TypeError.
Proof.
  unfold compare_digest. now rewrite expected_token_ascii.
Qed.

(** [verify_token] in full, for a non-zero window length: the message
    and the secret are encoded before anything is compared. *)
Lemma verify_token_eval cfg clock member_id action token :
  TOKEN_WINDOW_SECONDS cfg <> 0 ->
  verify_token cfg clock member_id action token
  = if Py.has_surrogate member_id || Py.has_surrogate action then Raise UnicodeEncodeError
    else if Py.has_surrogate (SECRET cfg) then Raise UnicodeEncodeError
    else if Py.isascii token
    then Ok (String.eqb (expected_token cfg member_id action (window_index cfg clock)) token
             || String.eqb (expected_token cfg member_id action (window_index cfg clock - 1))
                  token)
    else Raise TypeError.
Proof.
  intros Hw. unfold verify_token, Py.floordiv.
  destruct (Z.eqb_spec (TOKEN_WINDOW_SECONDS cfg) 0); [contradiction|].
  cbn [rbind verify_loop]. unfold Py.encode. rewrite !format_msg_surrogate.
  destruct (Py.has_surrogate member_id || Py.has_surrogate action); [reflexivity|].
  cbn [rbind]. destruct (Py.has_surrogate (SECRET cfg)); [reflexivity|]. cbn [rbind].
  fold (token_of_digest
          (HMAC.digest (SECRET cfg)
             (format_msg member_id action
                (Py.int_timestamp clock / TOKEN_WINDOW_SECONDS cfg)))).
  fold (token_of_digest
          (HMAC.digest (SECRET cfg)
             (format_msg member_id action
                (Py.int_timestamp clock / TOKEN_WINDOW_SECONDS cfg - 1)))).
  fold (expected_token cfg member_id action
          (Py.int_timestamp clock / TOKEN_WINDOW_SECONDS cfg)).
  fold (expected_token cfg member_id action
          (Py.int_timestamp clock / TOKEN_WINDOW_SECONDS cfg - 1)).
  rewrite !compare_digest_expected. unfold window_index.
  destruct (Py.isascii token); [|reflexivity]. cbn [rbind].
  destruct (String.eqb _ token); [reflexivity|]. cbn [rbind].
  destruct (String.eqb _ token); reflexivity.
Qed.

Lemma verify_token_ascii cfg clock member_id action token :
  TOKEN_WINDOW_SECONDS cfg <> 0 ->
  encodable member_id -> encodable action -> encodable (SECRET cfg) ->
  Py.isascii token = true ->
  verify_token cfg clock member_id action token
  = Ok (String.eqb (expected_token cfg member_id action (window_index cfg clock)) token
        || String.eqb (expected_token cfg member_id action (window_index cfg clock - 1)) token).
Proof.
  unfold encodable. intros Hw Hm Ha Hs Hasc.
  now rewrite verify_token_eval, Hm, Ha, Hs, Hasc.
Qed.

Lemma verify_token_nonascii cfg clock member_id action token :
  TOKEN_WINDOW_SECONDS cfg <> 0 ->
  encodable member_id -> encodable action -> encodable (SECRET cfg) ->
  Py.isascii token = false ->
  verify_token cfg clock member_id action token = Raise TypeError.
Proof.
  unfold encodable. intros Hw Hm Ha Hs Hasc.
  now rewrite verify_token_eval, Hm, Ha, Hs, Hasc.
Qed.

Lemma verify_token_zero_window cfg clock member_id action token :
  TOKEN_WINDOW_SECONDS cfg = 0 ->
  verify_token cfg clock member_id action token = Raise ZeroDivisionError.
Proof.
  intros Hw. unfold verify_token, Py.floordiv. rewrite Hw. reflexivity.
Qed.

(** A verification that returns has encoded its inputs and compared an
    ASCII token. *)
Lemma verify_token_returns cfg clock member_id action token b :
  verify_token cfg clock member_id action token = Ok b ->
  TOKEN_WINDOW_SECONDS cfg <> 0 /\ encodable member_id /\ encodable action /\
  encodable (SECRET cfg) /\ Py.isascii token = true.
Proof.
  unfold encodable. intros H.
  destruct (Z.eq_dec (TOKEN_WINDOW_SECONDS cfg) 0) as [Hw | Hw].
  { rewrite verify_token_zero_window in H by assumption. discriminate. }
  rewrite verify_token_eval in H by assumption.
  destruct (Py.has_surrogate member_id); [discriminate|].
  destruct (Py.has_surrogate action); [discriminate|].
  destruct (Py.has_surrogate (SECRET cfg)); [discriminate|].
  destruct (Py.isascii token); [auto | discriminate].
Qed.

(** A verification that succeeds names the window whose digest matched. *)
Lemma verify_true_inv cfg clock member_id action token :
  verify_token cfg clock member_id action token = Ok true ->
  exists ts,
    (ts = window_index cfg clock \/ ts = window_index cfg clock - 1) /\
    token = expected_token cfg member_id action ts.
Proof.
  intros H.
  destruct (verify_token_returns _ _ _ _ _ _ H) as (Hw & Hm & Ha & Hs & Hasc).
  rewrite verify_token_ascii in H by assumption.
  remember (String.eqb _ token || String.eqb _ token) as b eqn:Eb in H.
  assert (b = true) by congruence. subst b.
  apply orb_true_iff in H0 as [H0 | H0];
    apply String.eqb_eq in H0; eauto.
Qed.

Lemma verify_token_raises cfg clock member_id action token e :
  verify_token cfg clock member_id action token = Raise e ->
  e = TypeError \/ e = ZeroDivisionError \/ e = UnicodeEncodeError.
Proof.
  destruct (Z.eq_dec (TOKEN_WINDOW_SECONDS cfg) 0) as [Hw | Hw].
  - rewrite verify_token_zero_window by assumption. intros [= <-]. auto.
  - rewrite verify_token_eval by assumption.
    destruct (Py.has_surrogate member_id || Py.has_surrogate action);
      [intros [= <-]; auto|].
    destruct (Py.has_surrogate (SECRET cfg)); [intros [= <-]; auto|].
    destruct (Py.isascii token); [discriminate | intros [= <-]; auto].
Qed.

(** ** The canonical message is injective *)

Lemma has_char_append c r t : has_char c (r ++ String c t)%string = true.
Proof.
  induction r as [|x r IH]; cbn [append has_char].
  - now rewrite Ascii.eqb_refl.
  - rewrite IH. apply orb_true_r.
Qed.

Lemma append_assoc_str (a b c : str) : ((a ++ b) ++ c = a ++ (b ++ c))%string.
Proof. induction a as [|x a IH]; cbn [append]; [reflexivity | now rewrite IH]. Qed.

Lemma append_inv_head (p x y : str) : (p ++ x = p ++ y)%string -> x = y.
Proof.
  induction p as [|c p IH]; cbn [append]; [trivial|].
  intros [= H]. auto.
Qed.

(** Splitting at the last separator is unambiguous. *)
Lemma split_last_sep c (x x' t t' : str) :
  has_char c t = false -> has_char c t' = false ->
  (x ++ String c t = x' ++ String c t')%string -> x = x' /\ t = t'.
Proof.
  intros Ht Ht'. revert x'.
  induction x as [|a x IH]; intros [|a' x']; cbn [append].
  - intros [= H]. auto.
  - intros [= Ha H]. subst. rewrite has_char_append in Ht. discriminate.
  - intros [= Ha H]. subst. rewrite has_char_append in Ht'. discriminate.
  - intros [= Ha H]. subst. destruct (IH _ H). split; congruence.
Qed.

Lemma string_of_uint_no_colon d :
  has_char ":" (NilEmpty.string_of_uint d) = false.
Proof. induction d; cbn; auto. Qed.

Lemma string_of_uint_nz_no_colon d :
  has_char ":" (NilZero.string_of_uint d) = false.
Proof.
  pose proof (string_of_uint_no_colon d) as H.
  destruct d; first [reflexivity | exact H].
Qed.

Lemma str_of_int_no_colon n : has_char ":" (Py.str_of_int n) = false.
Proof.
  unfold Py.str_of_int, NilZero.string_of_int.
  destruct (Z.to_int n) as [d | d]; cbn [has_char];
    rewrite ?string_of_uint_nz_no_colon; reflexivity.
Qed.

Lemma str_of_int_inj n n' : Py.str_of_int n = Py.str_of_int n' -> n = n'.
Proof.
  unfold Py.str_of_int. intros H.
  assert (Hnn : forall z, Z.to_int z <> Decimal.Pos Decimal.Nil /\
                          Z.to_int z <> Decimal.Neg Decimal.Nil).
  { intros [|p|p]; cbn; split; try discriminate;
      intros [= E]; exact (DecimalPos.Unsigned.to_uint_nonnil p E). }
  apply DecimalZ.to_int_inj.
  destruct (Hnn n) as [A B], (Hnn n') as [A' B'].
  pose proof (NilZero.isi _ A B) as E. pose proof (NilZero.isi _ A' B') as E'.
  rewrite H in E. congruence.
Qed.

Lemma valid_action_no_colon action : valid_action action -> has_char ":" action = false.
Proof. intros [-> | ->]; reflexivity. Qed.

Lemma format_msg_inj member_id member_id' action action' ts ts' :
  valid_action action -> valid_action action' ->
  format_msg member_id action ts = format_msg member_id' action' ts' ->
  member_id = member_id' /\ action = action' /\ ts = ts'.
Proof.
  intros Ha Ha' H. unfold format_msg in H.
  change (":" ++ ?x)%string with (String ":" x) in H.
  assert (H' : ((member_id ++ String ":" action) ++ String ":" (Py.str_of_int ts)
                = (member_id' ++ String ":" action') ++ String ":" (Py.str_of_int ts'))%string).
  { rewrite !append_assoc_str. exact H. }
  apply split_last_sep in H' as [H1 H2]; try apply str_of_int_no_colon.
  apply split_last_sep in H1 as [H3 H4]; try (apply valid_action_no_colon; assumption).
  repeat split; try assumption. apply str_of_int_inj, H2.
Qed.

(** ** The text encoding of a digest loses nothing *)

Lemma chr_ord z : is_byte z -> Py.ord (Py.chr z) = z.
Proof.
  intros Hz. unfold Py.ord, Py.chr, is_byte in *.
  rewrite Z.mod_small by lia.
  rewrite N_ascii_embedding by lia. lia.
Qed.

Lemma to_list_of_list l : Forall is_byte l -> Py.to_list (Py.of_list l) = l.
Proof.
  unfold Py.to_list, Py.of_list. rewrite list_ascii_of_string_of_list_ascii.
  induction 1 as [|z l Hz _ IH]; cbn [map]; [reflexivity|].
  now rewrite chr_ord, IH.
Qed.

Lemma bytes_of_word_bytes w : Forall is_byte (SHA256.bytes_of_word w).
Proof.
  unfold SHA256.bytes_of_word, is_byte.
  repeat constructor; apply Z.mod_pos_bound; lia.
Qed.

Lemma sha256_digest_list_bytes msg :
  Forall is_byte (SHA256.digest_list msg) /\ List.length (SHA256.digest_list msg) = 32%nat.
Proof.
  unfold SHA256.digest_list, SHA256.digest_words.
  set (st := SHA256.process _ _ _). split.
  - cbn [flat_map]. rewrite !Forall_app. repeat split;
      first [apply bytes_of_word_bytes | constructor].
  - reflexivity.
Qed.

Lemma hmac_digest_list_bytes key msg :
  Forall is_byte (HMAC.digest_list key msg) /\
  List.length (HMAC.digest_list key msg) = 32%nat.
Proof. unfold HMAC.digest_list. apply sha256_digest_list_bytes. Qed.

Lemma sextet_index n : index_of (Base64.sextet n) Base64.alphabet = n mod 64.
Proof.
  unfold Base64.sextet.
  assert (Hall : forallb (fun k => index_of (nth (Z.to_nat k) Base64.alphabet "="%char)
                                     Base64.alphabet =? k)
                   (map Z.of_nat (seq 0 64)) = true) by (vm_compute; reflexivity).
  rewrite forallb_forall in Hall.
  apply Z.eqb_eq, Hall.
  pose proof (Z.mod_pos_bound n 64 ltac:(lia)) as Hb.
  rewrite <- (Z2Nat.id (n mod 64)) at 1 by lia.
  apply in_map, in_seq. lia.
Qed.

Lemma sextet_inj x y : Base64.sextet x = Base64.sextet y -> x mod 64 = y mod 64.
Proof. intros H. rewrite <- !sextet_index. now rewrite H. Qed.

Lemma sextet_not_pad n : Ascii.eqb (Base64.sextet n) "=" = false.
Proof.
  unfold Base64.sextet.
  assert (Hall : forallb (fun c => negb (Ascii.eqb c "=")) Base64.alphabet = true)
    by reflexivity.
  rewrite forallb_forall in Hall.
  apply negb_true_iff, Hall, nth_In.
  pose proof (Z.mod_pos_bound n 64 ltac:(lia)).
  change (List.length Base64.alphabet) with 64%nat. lia.
Qed.

Lemma rstrip_keep c x s :
  Ascii.eqb x c = false -> Py.rstrip c (String x s) = String x (Py.rstrip c s).
Proof.
  intros H. cbn [Py.rstrip]. destruct (Py.rstrip c s); [now rewrite H | reflexivity].
Qed.

Lemma rstrip_encode_list l : Py.rstrip "=" (Base64.encode_list l) = encode_body l.
Proof.
  induction l using list_ind3; cbn [Base64.encode_list encode_body];
    rewrite ?rstrip_keep by apply sextet_not_pad; try reflexivity.
  now rewrite IHl.
Qed.

Lemma encode_body_inj l l' :
  Forall is_byte l -> Forall is_byte l' -> List.length l = List.length l' ->
  encode_body l = encode_body l' -> l = l'.
Proof.
  revert l'. induction l using list_ind3; intros l' Hl Hl' Hlen H.
  - destruct l'; [reflexivity | discriminate].
  - destruct l' as [|a' [|? ?]]; try discriminate.
    cbn [encode_body] in H. injection H as H1 H2.
    apply sextet_inj in H1, H2.
    inversion Hl as [|? ? Ha _]; inversion Hl' as [|? ? Ha' _]; subst.
    unfold is_byte in *. f_equal. Z.to_euclidean_division_equations. lia.
  - destruct l' as [|a' [|b' [|? ?]]]; try discriminate.
    cbn [encode_body] in H. injection H as H1 H2 H3.
    apply sextet_inj in H1, H2, H3.
    inversion Hl as [|? ? Ha Hl1]; inversion Hl1 as [|? ? Hb _];
      inversion Hl' as [|? ? Ha' Hl1']; inversion Hl1' as [|? ? Hb' _]; subst.
    unfold is_byte in *.
    assert (a = a' /\ b = b') as [-> ->]
      by (Z.to_euclidean_division_equations; lia).
    reflexivity.
  - destruct l' as [|a' [|b' [|c' rest']]]; try discriminate.
    cbn [encode_body] in H. injection H as H1 H2 H3 H4 H5.
    apply sextet_inj in H1, H2, H3, H4.
    inversion Hl as [|? ? Ha Hl1]; inversion Hl1 as [|? ? Hb Hl2];
      inversion Hl2 as [|? ? Hc Hl3];
      inversion Hl' as [|? ? Ha' Hl1']; inversion Hl1' as [|? ? Hb' Hl2'];
      inversion Hl2' as [|? ? Hc' Hl3']; subst.
    cbn [List.length] in Hlen.
    rewrite (IHl rest') by (auto; lia).
    unfold is_byte in *.
    assert (a = a' /\ b = b' /\ c = c') as (-> & -> & ->)
      by (Z.to_euclidean_division_equations; lia).
    reflexivity.
Qed.

(** Two HMAC digests with the same token text are the same digest. *)
Lemma token_of_digest_inj key msg key' msg' :
  token_of_digest (HMAC.digest key msg) = token_of_digest (HMAC.digest key' msg') ->
  HMAC.digest key msg = HMAC.digest key' msg'.
Proof.
  unfold token_of_digest, Py.decode, Base64.urlsafe_b64encode, HMAC.digest.
  rewrite !rstrip_encode_list.
  destruct (hmac_digest_list_bytes (Py.to_list key) (Py.to_list msg)) as [Hb Hl].
  destruct (hmac_digest_list_bytes (Py.to_list key') (Py.to_list msg')) as [Hb' Hl'].
  rewrite !to_list_of_list by assumption.
  intros H.
  assert (E : HMAC.digest_list (Py.to_list key) (Py.to_list msg)
              = HMAC.digest_list (Py.to_list key') (Py.to_list msg'))
    by (apply encode_body_inj; auto; congruence).
  now rewrite E.
Qed.

(** ** Round trip *)

Lemma verify_generated cfg member_id action t now' :
  encodable member_id -> valid_action action -> encodable (SECRET cfg) ->
  exact_clock t -> exact_clock now' ->
  t <= now' < t + TOKEN_WINDOW_SECONDS cfg * 1000000 ->
  verify_token cfg now' member_id action
    (expected_token cfg member_id action (window_index cfg t)) = Ok true.
Proof.
  intros Hm Ha Hs Et En Ht.
  rewrite verify_token_ascii
    by (lia || assumption || apply expected_token_ascii || now apply valid_action_encodable).
  destruct (window_index_same_or_next cfg t now' Et En Ht) as [-> | ->].
  - now rewrite String.eqb_refl.
  - rewrite (String.eqb_refl (expected_token _ _ _ (window_index cfg t))).
    now rewrite orb_true_r.
Qed.

(** For clock readings before 2514 and strings that can be encoded, a
    token is accepted for one window length after its issue. *)
Lemma roundtrip_before_2514 cfg clock member_id action now now' :
  valid_action action -> encodable member_id -> encodable (SECRET cfg) ->
  exact_clock (issue_time clock now) -> exact_clock now' ->
  issue_time clock now <= now'
    < issue_time clock now + TOKEN_WINDOW_SECONDS cfg * 1000000 ->
  exists token,
    generate_token cfg clock member_id action now = Ok token /\
    verify_token cfg now' member_id action token = Ok true.
Proof.
  intros Ha Hm Hs Et En Ht. eexists. split.
  - apply generate_token_valid; [assumption | lia | assumption | assumption].
  - now apply verify_generated.
Qed.

(** C1. Round-trip validity fails on the code at far clock readings: the
    token issued at 3058-10-26T03:45:59.999998Z (window 3435973835) is
    refused 9.999999 s later, inside one window length, because the double
    holding that later time rounds up to the next second and the verifier
    looks at windows 3435973837 and 3435973836. *)
Theorem roundtrip_fails_after_2514 :
  valid_action "IN" /\
  (34359738359999998 <= 34359738369999997
     < 34359738359999998 + TOKEN_WINDOW_SECONDS default_config * 1000000) /\
  window_index default_config 34359738359999998 = 3435973835 /\
  window_index default_config 34359738369999997 = 3435973837 /\
  exists token,
    generate_token default_config 34359738359999998 "m1" "IN" None = Ok token /\
    verify_token default_config 34359738369999997 "m1" "IN" token = Ok false.
Proof.
  split; [left; reflexivity|]. split; [cbn; lia|].
  split; [vm_compute; reflexivity|]. split; [vm_compute; reflexivity|].
  eexists. split; vm_compute; reflexivity.
Qed.

(** ** Action validation *)

(** With a non-zero window length and an identifier and a secret that can
    be encoded, [generate_token] raises HTTP 400 "Invalid action" exactly
    when the action is neither IN nor OUT, raises nothing else, and
    returns a token for IN and OUT. *)
Lemma generate_token_action_validation cfg clock member_id action now :
  TOKEN_WINDOW_SECONDS cfg <> 0 ->
  encodable member_id -> encodable (SECRET cfg) ->
  (generate_token cfg clock member_id action now
     = Raise (HTTPException 400 "Invalid action") <-> ~ valid_action action) /\
  (forall e, generate_token cfg clock member_id action now = Raise e ->
             e = HTTPException 400 "Invalid action") /\
  (valid_action action ->
   exists token, generate_token cfg clock member_id action now = Ok token).
Proof.
  intros Hw Hm Hs.
  destruct (valid_action_dec action) as [E | Hn].
  - rewrite (generate_token_valid _ _ _ _ _ E Hw Hm Hs).
    repeat split; try discriminate; try tauto. eauto.
  - rewrite (generate_token_invalid _ _ _ _ _ Hn).
    repeat split; try tauto; try congruence.
Qed.

(** C8. Action validation fails on the code for strings that cannot be
    encoded: under the valid action IN, [generate_token] raises
    [UnicodeEncodeError] when the secret is what [os.getenv] returns for
    a [QR_SECRET] holding the byte FF (every call then fails), and when
    the member identifier is the lone surrogate U+D800. *)
Theorem generate_token_unencodable_raises :
  valid_action "IN" /\
  generate_token (mkConfig secret_ff 10) 1000000000 "m1" "IN" None
    = Raise UnicodeEncodeError /\
  generate_token default_config 1000000000 id_d800 "IN" None
    = Raise UnicodeEncodeError.
Proof.
  split; [left; reflexivity|]. split; vm_compute; reflexivity.
Qed.

(** ** Tokens outside the ASCII range *)

(** C7. Totality of [verify_token] fails on the code: a token holding a
    character outside ASCII (here U+00E9, two bytes in UTF-8) makes
    [hmac.compare_digest] raise [TypeError] instead of returning false,
    whatever the clock reads. *)
Theorem verify_token_non_ascii_raises clock :
  verify_token default_config clock "m1" "IN" (String "195" (String "169" ""))
  = Raise TypeError.
Proof.
  apply verify_token_nonascii; first [reflexivity | cbn; lia].
Qed.

(** On ASCII tokens, with strings that can be encoded, the verifier is
    total and decides membership among the two candidates. *)
Lemma verify_token_ascii_iff cfg clock member_id action token :
  TOKEN_WINDOW_SECONDS cfg <> 0 ->
  encodable member_id -> encodable action -> encodable (SECRET cfg) ->
  Py.isascii token = true ->
  exists b, verify_token cfg clock member_id action token = Ok b /\
    (b = true <->
     token = expected_token cfg member_id action (window_index cfg clock) \/
     token = expected_token cfg member_id action (window_index cfg clock - 1)).
Proof.
  intros Hw Hm Ha Hs Hasc. rewrite verify_token_ascii by assumption.
  eexists. split; [reflexivity|].
  rewrite orb_true_iff, !String.eqb_eq. intuition congruence.
Qed.

(** ** Expiry *)

Lemma expected_token_digest cfg member_id action ts :
  expected_token cfg member_id action ts
  = token_of_digest (HMAC.digest (SECRET cfg) (format_msg member_id action ts)).
Proof. reflexivity. Qed.


(** From the epoch on and before 2514, two window lengths after the issue
    the verifier compares the token with the tokens of two later windows
    only: it answers true only if HMAC-SHA256 gives the digest of the
    issuing window's message to the different message of the window of
    the verification time or of the one before. *)
Lemma expired_token_needs_collision cfg clock member_id action now now'' :
  valid_action action -> encodable member_id -> encodable (SECRET cfg) ->
  0 < TOKEN_WINDOW_SECONDS cfg ->
  exact_clock (issue_time clock now) -> exact_clock now'' ->
  0 <= issue_time clock now ->
  issue_time clock now + 2 * TOKEN_WINDOW_SECONDS cfg * 1000000 <= now'' ->
  exists token b,
    generate_token cfg clock member_id action now = Ok token /\
    verify_token cfg now'' member_id action token = Ok b /\
    (b = true ->
     exists ts,
       (ts = window_index cfg now'' \/ ts = window_index cfg now'' - 1) /\
       window_index cfg (issue_time clock now) < ts /\
       format_msg member_id action ts
         <> format_msg member_id action (window_index cfg (issue_time clock now)) /\
       HMAC.digest (SECRET cfg) (format_msg member_id action ts)
       = HMAC.digest (SECRET cfg)
           (format_msg member_id action (window_index cfg (issue_time clock now)))).
Proof.
  intros Ha Hm Hs Hw Et En H0 Hlate.
  set (t := issue_time clock now) in *.
  pose proof (window_index_expired cfg t now'' Et En Hw (or_introl H0) Hlate) as Hidx.
  pose proof (valid_action_encodable _ Ha) as Hae.
  eexists _, _.
  split; [apply generate_token_valid; [assumption | lia | assumption | assumption]|].
  fold t.
  split; [apply verify_token_ascii; first [assumption | lia | apply expected_token_ascii]|].
  intros Hb.
  assert (Hv : verify_token cfg now'' member_id action
                 (expected_token cfg member_id action (window_index cfg t)) = Ok true).
  { rewrite verify_token_ascii
      by first [assumption | lia | apply expected_token_ascii]. now rewrite Hb. }
  apply verify_true_inv in Hv as (ts & Hts & Heq).
  exists ts. split; [exact Hts|]. split; [lia|]. split.
  - intros E. apply format_msg_inj in E; try assumption. lia.
  - rewrite !expected_token_digest in Heq. symmetry. apply token_of_digest_inj, Heq.
Qed.

(** The scenario of the specification: issued at 1000 s (window 100),
    accepted at 1005 s and 1015 s, refused at 1025 s. *)
Example scenario_dev_secret :
  generate_token default_config 0 "m1" "IN" (Some 1000000000)
    = Ok "QnFXddw4XdzIX1DJ9YCU0b1-0vlL7DSjklVCjG0TyaY" /\
  verify_token default_config 1005000000 "m1" "IN"
    "QnFXddw4XdzIX1DJ9YCU0b1-0vlL7DSjklVCjG0TyaY" = Ok true /\
  verify_token default_config 1015000000 "m1" "IN"
    "QnFXddw4XdzIX1DJ9YCU0b1-0vlL7DSjklVCjG0TyaY" = Ok true /\
  verify_token default_config 1025000000 "m1" "IN"
    "QnFXddw4XdzIX1DJ9YCU0b1-0vlL7DSjklVCjG0TyaY" = Ok false.
Proof. split; [|split; [|split]]; vm_compute; reflexivity. Qed.

(** ** Secrets *)

(** HMAC fills a short key with zero bytes, so a trailing NUL in the
    secret does not change any digest. *)
Lemma hmac_key_trailing_nul key msg :
  (String.length key < 64)%nat ->
  HMAC.digest (key ++ String "000" "")%string msg = HMAC.digest key msg.
Proof.
  intros Hlen. unfold HMAC.digest, HMAC.digest_list.
  assert (Hl : Py.to_list (key ++ String "000" "")%string = Py.to_list key ++ [0]).
  { unfold Py.to_list. clear Hlen.
    induction key as [|c key IH]; cbn in *; [reflexivity | now rewrite IH]. }
  assert (Hn : List.length (Py.to_list key) = String.length key).
  { unfold Py.to_list. rewrite length_map. clear.
    induction key; cbn; auto. }
  assert (Hkb : HMAC.key_block (Py.to_list (key ++ String "000" "")%string)
                = HMAC.key_block (Py.to_list key)).
  { unfold HMAC.key_block, HMAC.block_size. rewrite Hl, length_app, Hn. cbn [List.length].
    destruct (Nat.ltb_spec 64 (String.length key + 1)); [lia|].
    destruct (Nat.ltb_spec 64 (String.length key)); [lia|].
    rewrite <- app_assoc, length_app, Hn. cbn [List.length app]. f_equal.
    replace (64 - String.length key)%nat with (S (64 - (String.length key + 1)))%nat by lia.
    reflexivity. }
  now rewrite Hkb.
Qed.

Lemma has_surrogate_nul s :
  Py.has_surrogate (s ++ String "000" "")%string = Py.has_surrogate s.
Proof.
  induction s as [|c s IH]; [reflexivity|].
  destruct s as [|c' s'].
  - cbn [append Py.has_surrogate]. change (160 <=? Py.ord "000") with false.
    now rewrite andb_false_r.
  - cbn [append] in *.
    change (Py.has_surrogate (String c (String c' (s' ++ String "000" ""))))
      with (((Py.ord c =? 237) && (160 <=? Py.ord c') && (Py.ord c' <=? 191))
            || Py.has_surrogate (String c' (s' ++ String "000" ""))).
    now rewrite IH.
Qed.

(** C3. Binding to the secret fails on the code in how it answers: under
    a wrong secret that cannot be encoded - what [os.getenv] returns for a
    [QR_SECRET] holding the byte FF - [verify_token] raises
    [UnicodeEncodeError] instead of returning false, and so it does for a
    different member identifier that is the lone surrogate U+D800. *)
Theorem verify_token_mismatch_raises :
  SECRET default_config <> secret_ff /\
  "m1" <> id_d800 /\
  exists token,
    generate_token default_config 1000000000 "m1" "IN" None = Ok token /\
    verify_token (mkConfig secret_ff 10) 1000000000 "m1" "IN" token
      = Raise UnicodeEncodeError /\
    verify_token default_config 1000000000 id_d800 "IN" token
      = Raise UnicodeEncodeError.
Proof.
  split; [discriminate|]. split; [discriminate|].
  eexists. split; [vm_compute; reflexivity|]. split; vm_compute; reflexivity.
Qed.

(** A token accepted at one clock reading for two different members or
    two different actions is an HMAC collision: one key, two different
    messages of the two window indices examined, one digest. *)
Lemma mismatch_needs_collision cfg clock member_id member_id' action action' token :
  valid_action action -> valid_action action' ->
  member_id <> member_id' \/ action <> action' ->
  verify_token cfg clock member_id action token = Ok true ->
  verify_token cfg clock member_id' action' token = Ok true ->
  exists ts ts',
    (ts = window_index cfg clock \/ ts = window_index cfg clock - 1) /\
    (ts' = window_index cfg clock \/ ts' = window_index cfg clock - 1) /\
    format_msg member_id action ts <> format_msg member_id' action' ts' /\
    HMAC.digest (SECRET cfg) (format_msg member_id action ts)
      = HMAC.digest (SECRET cfg) (format_msg member_id' action' ts').
Proof.
  intros Ha Ha' Hne H1 H2.
  apply verify_true_inv in H1 as (ts & Hts & E1).
  apply verify_true_inv in H2 as (ts' & Hts' & E2).
  exists ts, ts'. split; [exact Hts|]. split; [exact Hts'|]. split.
  - intros E. apply format_msg_inj in E as (Em & Ea & _); try assumption.
    destruct Hne; contradiction.
  - apply token_of_digest_inj. rewrite <- !expected_token_digest. congruence.
Qed.
(** ** The scanning endpoint *)

Lemma scan2_no_db cfg cv cn new_id payload :
  scan2 cfg cv cn new_id payload None
  = (Raise (HTTPException 500 "Database not configured"), None).
Proof. reflexivity. Qed.

Lemma scan2_invalid_action cfg cv cn new_id member_id action token d :
  ~ valid_action action ->
  scan2 cfg cv cn new_id (AttendanceScan2.mk member_id action token) (Some d)
  = (Raise (HTTPException 400 "Invalid action"), Some d).
Proof.
  intros Ha. unfold scan2, with_db. cbn [AttendanceScan2.action].
  destruct (Py.in2 action "IN" "OUT") eqn:E.
  - apply in2_valid_action in E. contradiction.
  - reflexivity.
Qed.

Lemma scan2_verify_raises cfg cv cn new_id member_id action token d e :
  valid_action action ->
  verify_token cfg cv member_id action token = Raise e ->
  scan2 cfg cv cn new_id (AttendanceScan2.mk member_id action token) (Some d)
  = (Raise e, Some d).
Proof.
  intros Ha Hv. unfold scan2, with_db.
  cbn [AttendanceScan2.action AttendanceScan2.member_id AttendanceScan2.token].
  apply in2_valid_action in Ha. rewrite Ha. cbn [negb].
  unfold bind, lift. now rewrite Hv.
Qed.

Lemma scan2_rejected cfg cv cn new_id member_id action token d :
  valid_action action ->
  verify_token cfg cv member_id action token = Ok false ->
  scan2 cfg cv cn new_id (AttendanceScan2.mk member_id action token) (Some d)
  = (Raise (HTTPException 401 "Invalid or expired token"), Some d).
Proof.
  intros Ha Hv. unfold scan2, with_db.
  cbn [AttendanceScan2.action AttendanceScan2.member_id AttendanceScan2.token].
  apply in2_valid_action in Ha. rewrite Ha. cbn [negb].
  unfold bind, lift. now rewrite Hv.
Qed.

Lemma scan2_verified cfg cv cn new_id member_id action token d :
  valid_action action ->
  verify_token cfg cv member_id action token = Ok true ->
  scan2 cfg cv cn new_id (AttendanceScan2.mk member_id action token) (Some d)
  = match oid member_id with
    | Ok o =>
        (Ok [("status", "ok")],
         Some (mkDatabase (Mongo.update_one o (scan_upd action cn) (member d))
                          (attendance d ++ [scan_att new_id member_id action cn])))
    | Raise e =>
        (Raise e,
         Some (mkDatabase (member d)
                          (attendance d ++ [scan_att new_id member_id action cn])))
    end.
Proof.
  intros Ha Hv. unfold scan2, with_db.
  cbn [AttendanceScan2.action AttendanceScan2.member_id AttendanceScan2.token].
  pose proof Ha as Hin. apply in2_valid_action in Hin. rewrite Hin. cbn [negb].
  unfold bind, lift, get, put, ret. rewrite Hv. cbn [negb member attendance].
  unfold scan_upd, scan_att, Mongo.insert_attendance, Upd.update.
  destruct (oid member_id); destruct (String.eqb action "IN"); reflexivity.
Qed.

(** ** Updating one member document *)

Lemma set_fields_id u m : Member._id (Mongo.set_fields u m) = Member._id m.
Proof. reflexivity. Qed.

Lemma find_one_update_one o u l m :
  Mongo.find_one o l = Some m ->
  Mongo.find_one o (Mongo.update_one o u l) = Some (Mongo.set_fields u m).
Proof.
  unfold Mongo.find_one.
  induction l as [|x l IH]; cbn [find Mongo.update_one]; [discriminate|].
  destruct (Bson.id_matches o (Member._id x)) eqn:E.
  - intros [= ->]. cbn [find]. now rewrite set_fields_id, E.
  - intros H. cbn [find]. rewrite E. auto.
Qed.

Lemma update_one_length o u l :
  List.length (Mongo.update_one o u l) = List.length l.
Proof.
  induction l as [|x l IH]; cbn [Mongo.update_one]; [reflexivity|].
  destruct (Bson.id_matches o (Member._id x)); cbn [List.length]; congruence.
Qed.

Lemma update_one_other o u l i x :
  nth_error l i = Some x -> Bson.id_matches o (Member._id x) = false ->
  nth_error (Mongo.update_one o u l) i = Some x.
Proof.
  revert i. induction l as [|y l IH]; intros [|i]; cbn [nth_error Mongo.update_one];
    try discriminate.
  - intros [= ->] E. now rewrite E.
  - intros H E. destruct (Bson.id_matches o (Member._id y)); cbn [nth_error]; auto.
Qed.

(** At every position the document is left alone or is the matching one
    with the fields set. *)
Lemma update_one_nth o u l i x :
  nth_error l i = Some x ->
  nth_error (Mongo.update_one o u l) i = Some x \/
  (Bson.id_matches o (Member._id x) = true /\
   nth_error (Mongo.update_one o u l) i = Some (Mongo.set_fields u x)).
Proof.
  revert i. induction l as [|y l IH]; intros [|i]; cbn [nth_error Mongo.update_one];
    try discriminate.
  - intros [= ->]. destruct (Bson.id_matches o (Member._id x)) eqn:E; cbn [nth_error]; auto.
  - intros H. destruct (Bson.id_matches o (Member._id y)); cbn [nth_error]; auto.
Qed.

Lemma oid_of_str member_id o :
  Bson.ObjectId_of_str member_id = Some o -> oid member_id = Ok o.
Proof. unfold oid. now intros ->. Qed.

Lemma scan_upd_present action now m :
  Member.present (Mongo.set_fields (scan_upd action now) m) = String.eqb action "IN".
Proof. unfold scan_upd. destruct (String.eqb action "IN"); reflexivity. Qed.

(** C4, as stated, fails on the stored time: the store keeps whole
    milliseconds, so for a scan at 1005.000001 s the member's [last_in]
    and the record's timestamp are 1005.000000 s, not [now]. *)
Lemma scan2_stamp_is_not_now :
  exists d' m',
    scan2 default_config 1005000000 1005000001 fresh_id
      (AttendanceScan2.mk "0102030405060708090a0bff" "IN"
         "YKYUUhl_DNwfKDmBTkYzpG9WLPcEL-PUqLn7-EfWxys") (Some db_alice)
      = (Ok [("status", "ok")], Some d') /\
    Mongo.find_one alice_id (member d') = Some m' /\
    Member.last_in m' = Some 1005000000 /\
    Member.last_in m' <> Some 1005000001 /\
    attendance d'
      = [Attendance.mk (Bson.IdObject fresh_id) "0102030405060708090a0bff" "IN"
           1005000000 1005000000 1005000000] /\
    attendance d'
      <> attendance db_alice
           ++ [Attendance.mk (Bson.IdObject fresh_id) "0102030405060708090a0bff" "IN"
                 1005000001 1005000001 1005000001].
Proof.
  eexists _, _.
  split; [vm_compute; reflexivity|].
  split; [vm_compute; reflexivity|].
  split; [reflexivity|]. split; [discriminate|].
  split; [reflexivity | discriminate].
Qed.

(** C4, amended. Accepted-scan effect: for a registered member (the
    identifier denotes an [ObjectId] that a member document carries) and a
    token that passes verification, [scan2] returns ok whatever the
    member's prior presence state, appends exactly one attendance record
    (member identifier, action, and [now] rounded down to the millisecond
    as the store keeps it) to the log, and leaves the member with
    [present = true] and [last_in] at that stored time for IN, and
    [present = false] and [last_out] at that stored time for OUT; a
    repeated IN or OUT is not rejected. *)
Theorem scan2_accepted_effect cfg cv cn new_id member_id action token d o m :
  valid_action action ->
  verify_token cfg cv member_id action token = Ok true ->
  Bson.ObjectId_of_str member_id = Some o ->
  Mongo.find_one o (member d) = Some m ->
  exists d' m',
    scan2 cfg cv cn new_id (AttendanceScan2.mk member_id action token) (Some d)
      = (Ok [("status", "ok")], Some d') /\
    attendance d'
      = attendance d
          ++ [Attendance.mk (Bson.IdObject new_id) member_id action
                (Mongo.bson_datetime cn) (Mongo.bson_datetime cn) (Mongo.bson_datetime cn)] /\
    Mongo.find_one o (member d') = Some m' /\
    (action = "IN" ->
     Member.present m' = true /\ Member.last_in m' = Some (Mongo.bson_datetime cn)) /\
    (action = "OUT" ->
     Member.present m' = false /\ Member.last_out m' = Some (Mongo.bson_datetime cn)).
Proof.
  intros Ha Hv Ho Hm.
  rewrite (scan2_verified _ _ _ _ _ _ _ _ Ha Hv), (oid_of_str _ _ Ho).
  eexists _, _. split; [reflexivity|]. cbn [attendance member].
  split; [reflexivity|].
  split; [apply find_one_update_one, Hm|].
  split; intros ->; split; reflexivity.
Qed.

Lemma scan2_accepted_effect_witness :
  valid_action "IN" /\
  verify_token default_config 1005000000 "0102030405060708090a0bff" "IN"
    "YKYUUhl_DNwfKDmBTkYzpG9WLPcEL-PUqLn7-EfWxys" = Ok true /\
  Bson.ObjectId_of_str "0102030405060708090a0bff" = Some alice_id /\
  Mongo.find_one alice_id (member db_club) = Some alice_seen /\
  exists d' m',
    scan2 default_config 1005000000 1005000001 fresh_id
      (AttendanceScan2.mk "0102030405060708090a0bff" "IN"
         "YKYUUhl_DNwfKDmBTkYzpG9WLPcEL-PUqLn7-EfWxys") (Some db_club)
      = (Ok [("status", "ok")], Some d') /\
    attendance d'
      = attendance db_club
          ++ [Attendance.mk (Bson.IdObject fresh_id) "0102030405060708090a0bff" "IN"
                (Mongo.bson_datetime 1005000001) (Mongo.bson_datetime 1005000001)
                (Mongo.bson_datetime 1005000001)] /\
    Mongo.find_one alice_id (member d') = Some m' /\
    ("IN" = "IN" ->
     Member.present m' = true /\ Member.last_in m' = Some (Mongo.bson_datetime 1005000001)) /\
    ("IN" = "OUT" ->
     Member.present m' = false /\ Member.last_out m' = Some (Mongo.bson_datetime 1005000001)).
Proof.
  split; [left; reflexivity|].
  split; [vm_compute; reflexivity|].
  split; [vm_compute; reflexivity|].
  split; [vm_compute; reflexivity|].
  apply (scan2_accepted_effect default_config 1005000000 1005000001 fresh_id
           "0102030405060708090a0bff" "IN" "YKYUUhl_DNwfKDmBTkYzpG9WLPcEL-PUqLn7-EfWxys"
           db_club alice_id alice_seen).
  - left; reflexivity.
  - vm_compute; reflexivity.
  - vm_compute; reflexivity.
  - vm_compute; reflexivity.
Defined.

(** C10. Frame condition of [scan2], for every call on a configured
    database, accepted or not: the member collection keeps its length;
    every member document keeps its position, [name], [_id] and
    [created_at]; a call with action IN leaves every [last_out] as it
    was and a call with action OUT every [last_in]; and a document that
    the scanned identifier does not identify is left as it was
    altogether. *)
Theorem scan2_frame cfg cv cn new_id member_id action token d r d' :
  scan2 cfg cv cn new_id (AttendanceScan2.mk member_id action token) (Some d)
    = (r, Some d') ->
  List.length (member d') = List.length (member d) /\
  forall i x,
    nth_error (member d) i = Some x ->
    exists x',
      nth_error (member d') i = Some x' /\
      Member.name x' = Member.name x /\
      Member._id x' = Member._id x /\
      Member.created_at x' = Member.created_at x /\
      (action = "IN" -> Member.last_out x' = Member.last_out x) /\
      (action = "OUT" -> Member.last_in x' = Member.last_in x) /\
      ((forall o, Bson.ObjectId_of_str member_id = Some o ->
                  Bson.id_matches o (Member._id x) = false) ->
       x' = x).
Proof.
  intros Hrun.
  assert (Hsame : d' = mkDatabase (member d) (attendance d') ->
                  List.length (member d') = List.length (member d) /\
                  forall i x,
                    nth_error (member d) i = Some x ->
                    exists x',
                      nth_error (member d') i = Some x' /\
                      Member.name x' = Member.name x /\
                      Member._id x' = Member._id x /\
                      Member.created_at x' = Member.created_at x /\
                      (action = "IN" -> Member.last_out x' = Member.last_out x) /\
                      (action = "OUT" -> Member.last_in x' = Member.last_in x) /\
                      ((forall o, Bson.ObjectId_of_str member_id = Some o ->
                                  Bson.id_matches o (Member._id x) = false) ->
                       x' = x)).
  { intros ->. cbn [member]. split; [reflexivity|].
    intros i x Hx. exists x. repeat split; auto. }
  destruct (valid_action_dec action) as [Ha | Ha];
    [|rewrite (scan2_invalid_action _ _ _ _ _ _ _ _ Ha) in Hrun;
      injection Hrun as _ <-; apply Hsame; now destruct d].
  destruct (verify_token cfg cv member_id action token) as [[|] | e] eqn:Hv;
    [|rewrite (scan2_rejected _ _ _ _ _ _ _ _ Ha Hv) in Hrun;
      injection Hrun as _ <-; apply Hsame; now destruct d
     |rewrite (scan2_verify_raises _ _ _ _ _ _ _ _ _ Ha Hv) in Hrun;
      injection Hrun as _ <-; apply Hsame; now destruct d].
  rewrite (scan2_verified _ _ _ _ _ _ _ _ Ha Hv) in Hrun. unfold oid in Hrun.
  destruct (Bson.ObjectId_of_str member_id) as [o|] eqn:Ho;
    injection Hrun as _ <-; [|apply Hsame; reflexivity].
  clear Hsame. cbn [member]. split; [apply update_one_length|].
  intros i x Hx.
  destruct (update_one_nth o (scan_upd action cn) _ _ _ Hx) as [H | [Hmatch H]].
  - exists x. repeat split; auto.
  - exists (Mongo.set_fields (scan_upd action cn) x).
    split; [exact H|]. repeat split.
    + intros ->. reflexivity.
    + intros ->. reflexivity.
    + intros Hno. specialize (Hno o eq_refl). congruence.
Qed.

Lemma scan2_frame_witness :
  scan2 default_config 1005000000 1005000001 fresh_id
    (AttendanceScan2.mk "0102030405060708090a0bff" "OUT"
       "-JJ1KyBL1gZPBoXCjPjpxWujzLZlVMueqQvFsXxJO1I") (Some db_club)
  = (Ok [("status", "ok")],
     Some (mkDatabase
             [Member.mk (Bson.IdObject alice_id) "Alice" false (Some 990000000)
                (Some 1005000000) 900000000 1005000000;
              bob]
             [event_early;
              Attendance.mk (Bson.IdObject fresh_id) "0102030405060708090a0bff" "OUT"
                1005000000 1005000000 1005000000])) /\
  List.length [Member.mk (Bson.IdObject alice_id) "Alice" false (Some 990000000)
                 (Some 1005000000) 900000000 1005000000; bob]
    = List.length (member db_club) /\
  forall i x,
    nth_error (member db_club) i = Some x ->
    exists x',
      nth_error [Member.mk (Bson.IdObject alice_id) "Alice" false (Some 990000000)
                   (Some 1005000000) 900000000 1005000000; bob] i = Some x' /\
      Member.name x' = Member.name x /\
      Member._id x' = Member._id x /\
      Member.created_at x' = Member.created_at x /\
      ("OUT" = "IN" -> Member.last_out x' = Member.last_out x) /\
      ("OUT" = "OUT" -> Member.last_in x' = Member.last_in x) /\
      ((forall o, Bson.ObjectId_of_str "0102030405060708090a0bff" = Some o ->
                  Bson.id_matches o (Member._id x) = false) ->
       x' = x).
Proof.
  split; [vm_compute; reflexivity|].
  apply (scan2_frame default_config 1005000000 1005000001 fresh_id
           "0102030405060708090a0bff" "OUT" "-JJ1KyBL1gZPBoXCjPjpxWujzLZlVMueqQvFsXxJO1I"
           db_club (Ok [("status", "ok")])
           (mkDatabase
              [Member.mk (Bson.IdObject alice_id) "Alice" false (Some 990000000)
                 (Some 1005000000) 900000000 1005000000;
               bob]
              [event_early;
               Attendance.mk (Bson.IdObject fresh_id) "0102030405060708090a0bff" "OUT"
                 1005000000 1005000000 1005000000])).
  vm_compute; reflexivity.
Defined.

(** ** Scans for identifiers that no member carries *)

(** [scan2] has no member lookup: it never answers "Member not found",
    and it writes nothing unless the token was accepted. *)
Lemma scan2_outcomes cfg cv cn new_id payload db r db' :
  scan2 cfg cv cn new_id payload db = (r, db') ->
  match r with
  | Raise e =>
      (e <> invalid_member_id -> db' = db) /\
      (forall detail, e <> HTTPException 404 detail)
  | Ok _ =>
      exists d o,
        db = Some d /\
        oid (AttendanceScan2.member_id payload) = Ok o /\
        db' = Some (mkDatabase
                      (Mongo.update_one o (scan_upd (AttendanceScan2.action payload) cn)
                         (member d))
                      (attendance d
                         ++ [scan_att new_id (AttendanceScan2.member_id payload)
                               (AttendanceScan2.action payload) cn]))
  end.
Proof.
  destruct payload as [member_id action token]. cbn [AttendanceScan2.member_id AttendanceScan2.action].
  destruct db as [d|]; [|rewrite scan2_no_db; intros [= <- <-]; split; [reflexivity | discriminate]].
  destruct (valid_action_dec action) as [Hin | Hn].
  - destruct (verify_token cfg cv member_id action token) as [[|] | e] eqn:Hv.
    + rewrite (scan2_verified _ _ _ _ _ _ _ _ Hin Hv).
      unfold oid. destruct (Bson.ObjectId_of_str member_id) as [o|].
      * intros [= <- <-]. eauto.
      * intros [= <- <-]. split; [intros H; now contradiction H | discriminate].
    + rewrite (scan2_rejected _ _ _ _ _ _ _ _ Hin Hv).
      intros [= <- <-]. split; [reflexivity | discriminate].
    + rewrite (scan2_verify_raises _ _ _ _ _ _ _ _ _ Hin Hv).
      intros [= <- <-]. split; [reflexivity|].
      destruct (verify_token_raises _ _ _ _ _ _ Hv) as [-> | [-> | ->]]; discriminate.
  - rewrite (scan2_invalid_action _ _ _ _ _ _ _ _ Hn).
    intros [= <- <-]. split; [reflexivity | discriminate].
Qed.

(** C5. Unknown member rejection fails on the code: the identifier
    665f1c2e9b3a4d0012345678 is well formed and carried by no member of
    the database, the token is the one [generate_token] makes for it, and
    [scan2] answers ok, having appended an attendance record for the
    unknown member. *)
Theorem scan2_unknown_member_recorded :
  Bson.ObjectId_of_str "665f1c2e9b3a4d0012345678" <> None /\
  (forall o, Bson.ObjectId_of_str "665f1c2e9b3a4d0012345678" = Some o ->
             Mongo.find_one o (member db_alice) = None) /\
  generate_token default_config 0 "665f1c2e9b3a4d0012345678" "IN" (Some 1000000000)
    = Ok "2JvXJxUoIKCq3bmQnCYr8riEJpFhtHMia1VJvUiuIRU" /\
  scan2 default_config 1005000000 1005000001 fresh_id
    (AttendanceScan2.mk "665f1c2e9b3a4d0012345678" "IN"
       "2JvXJxUoIKCq3bmQnCYr8riEJpFhtHMia1VJvUiuIRU") (Some db_alice)
  = (Ok [("status", "ok")],
     Some (mkDatabase [alice]
             [Attendance.mk (Bson.IdObject fresh_id) "665f1c2e9b3a4d0012345678" "IN"
                1005000000 1005000000 1005000000])).
Proof.
  split; [vm_compute; discriminate|].
  split; [intros o H; vm_compute in H; injection H as <-; vm_compute; reflexivity|].
  split; vm_compute; reflexivity.
Qed.

(** ** Failures and what they leave behind *)

(** C6. Atomicity fails on the code: for the identifier "m1" (not an
    [ObjectId]) with a valid token, [scan2] raises "Invalid member id"
    after the attendance record has been inserted; the record stays and
    no presence flag is touched. *)
Theorem scan2_partial_commit :
  scan2 default_config 1005000000 1005000001 fresh_id
    (AttendanceScan2.mk "m1" "IN" "QnFXddw4XdzIX1DJ9YCU0b1-0vlL7DSjklVCjG0TyaY")
    (Some db_alice)
  = (Raise (HTTPException 400 "Invalid member id"),
     Some (mkDatabase [alice]
             [Attendance.mk (Bson.IdObject fresh_id) "m1" "IN"
                1005000000 1005000000 1005000000])) /\
  Some (mkDatabase [alice]
          [Attendance.mk (Bson.IdObject fresh_id) "m1" "IN"
             1005000000 1005000000 1005000000]) <> Some db_alice.
Proof.
  split; [vm_compute; reflexivity | discriminate].
Qed.
(** ** Listing a member's attendance *)






Lemma member_attendance_eval member_id limit d :
  member_attendance member_id limit (Some d)
  = (Ok (map Attendance.stringify_id
           (Mongo.limit limit
              (Mongo.sort_desc (Mongo.find_by_member member_id (attendance d))))),
     Some d).
Proof. reflexivity. Qed.

(** Reading never writes, whatever the limit. *)
Lemma member_attendance_read_only member_id limit db :
  snd (member_attendance member_id limit db) = db.
Proof. destruct db; reflexivity. Qed.

(** A limit of 0 is no limit. *)
Lemma member_attendance_limit_zero member_id d :
  member_attendance member_id 0 (Some d)
  = (Ok (map Attendance.stringify_id
           (Mongo.sort_desc (Mongo.find_by_member member_id (attendance d)))),
     Some d).
Proof. reflexivity. Qed.




(** The scenario of the specification on the model: an accepted IN then an
    accepted OUT leave the member absent, and the listing shows the OUT
    first. *)
Example scenario_in_then_out :
  exists d1 d2 m,
    scan2 default_config 1005000000 1005000001 fresh_id
      (AttendanceScan2.mk "0102030405060708090a0bff" "IN"
         "YKYUUhl_DNwfKDmBTkYzpG9WLPcEL-PUqLn7-EfWxys") (Some db_alice)
      = (Ok [("status", "ok")], Some d1) /\
    scan2 default_config 1005500000 1006000000 alice_id
      (AttendanceScan2.mk "0102030405060708090a0bff" "OUT"
         "-JJ1KyBL1gZPBoXCjPjpxWujzLZlVMueqQvFsXxJO1I") (Some d1)
      = (Ok [("status", "ok")], Some d2) /\
    Mongo.find_one alice_id (member d2) = Some m /\
    Member.present m = false /\
    fst (member_attendance "0102030405060708090a0bff" 10 (Some d2))
      = Ok (map Attendance.stringify_id [event_late; event_early]).
Proof.
  eexists _, _, _.
  split; [vm_compute; reflexivity|].
  split; [vm_compute; reflexivity|].
  split; [vm_compute; reflexivity|].
  split; vm_compute; reflexivity.
Qed.

(** * Further properties of the code *)

(** ** The shape of a token *)

Lemma sextet_urlsafe n : urlsafe_char (Base64.sextet n) = true.
Proof.
  unfold urlsafe_char, Base64.sextet. apply existsb_exists.
  eexists. split; [|apply Ascii.eqb_refl].
  apply nth_In. pose proof (Z.mod_pos_bound n 64 ltac:(lia)).
  change (List.length Base64.alphabet) with 64%nat. lia.
Qed.

Lemma encode_body_urlsafe l : all_urlsafe (encode_body l) = true.
Proof.
  induction l using list_ind3; cbn [encode_body all_urlsafe];
    rewrite ?sextet_urlsafe; try reflexivity.
  exact IHl.
Qed.

Lemma encode_body_length32 l :
  List.length l = 32%nat -> String.length (encode_body l) = 43%nat.
Proof.
  intros H.
  do 32 (destruct l as [|? l]; [discriminate|]).
  destruct l; [reflexivity | discriminate].
Qed.

Lemma expected_token_body cfg member_id action ts :
  expected_token cfg member_id action ts
  = encode_body (HMAC.digest_list (Py.to_list (SECRET cfg))
                   (Py.to_list (format_msg member_id action ts))).
Proof.
  unfold expected_token, token_of_digest, Py.decode, Base64.urlsafe_b64encode, HMAC.digest.
  rewrite rstrip_encode_list.
  now rewrite to_list_of_list by apply hmac_digest_list_bytes.
Qed.

Lemma expected_token_shape cfg member_id action ts :
  String.length (expected_token cfg member_id action ts) = 43%nat /\
  all_urlsafe (expected_token cfg member_id action ts) = true.
Proof.
  rewrite expected_token_body. split.
  - apply encode_body_length32, hmac_digest_list_bytes.
  - apply encode_body_urlsafe.
Qed.

(** X1. For a valid action and a non-zero window length,
    [generate_token] raises UnicodeEncodeError when the identifier or
    the secret cannot be encoded, and otherwise returns a token, which
    has exactly 43 characters, all of them from the URL-safe base64
    alphabet: no padding, nothing that needs escaping in a URL or a QR
    payload. *)
Theorem generate_token_format cfg clock member_id action now :
  valid_action action -> TOKEN_WINDOW_SECONDS cfg <> 0 ->
  if Py.has_surrogate member_id || Py.has_surrogate (SECRET cfg)
  then generate_token cfg clock member_id action now = Raise UnicodeEncodeError
  else
    exists token,
      generate_token cfg clock member_id action now = Ok token /\
      String.length token = 43%nat /\
      all_urlsafe token = true.
Proof.
  intros Ha Hw.
  destruct (Py.has_surrogate member_id) eqn:Hm; cbn [orb];
    [apply generate_token_encode_error; auto|].
  destruct (Py.has_surrogate (SECRET cfg)) eqn:Hs;
    [apply generate_token_encode_error; auto|].
  eexists. split; [apply generate_token_valid; assumption|].
  apply expected_token_shape.
Qed.

Lemma generate_token_format_witness :
  valid_action "OUT" /\ TOKEN_WINDOW_SECONDS default_config <> 0 /\
  exists token,
    generate_token default_config 1000000000 "m1" "OUT" None = Ok token /\
    String.length token = 43%nat /\
    all_urlsafe token = true.
Proof.
  split; [right; reflexivity|]. split; [cbn; lia|].
  apply (generate_token_format default_config 1000000000 "m1" "OUT" None).
  - right; reflexivity.
  - cbn; lia.
Defined.

(** ** How long a token stays valid *)

(** X2. A token issued at or after the epoch is accepted at every clock
    reading from its issue time to the end of the window that follows
    the issuing one, for clock readings whose seconds the double keeps
    exactly and an identifier and a secret that can be encoded. *)
Theorem token_accepted_through_next_window cfg clock member_id action now now' :
  valid_action action ->
  encodable member_id -> encodable (SECRET cfg) ->
  0 < TOKEN_WINDOW_SECONDS cfg ->
  exact_clock (issue_time clock now) -> exact_clock now' ->
  0 <= issue_time clock now ->
  issue_time clock now <= now'
    < (window_index cfg (issue_time clock now) + 2) * TOKEN_WINDOW_SECONDS cfg * 1000000 ->
  exists token,
    generate_token cfg clock member_id action now = Ok token /\
    verify_token cfg now' member_id action token = Ok true.
Proof.
  intros Ha Hm Hs Hw Et En H0 [Hle Hlt].
  set (t := issue_time clock now) in *.
  eexists. split; [apply generate_token_valid; [assumption | lia | assumption | assumption]|].
  fold t.
  rewrite verify_token_ascii
    by (lia || assumption || apply expected_token_ascii || now apply valid_action_encodable).
  assert (Hlo : window_index cfg t <= window_index cfg now').
  { unfold window_index. apply Z.div_le_mono; [lia|]. now apply int_timestamp_mono. }
  assert (Hhi : window_index cfg now' < window_index cfg t + 2).
  { unfold window_index at 1. rewrite int_timestamp_nonneg by (assumption || lia).
    apply Z.div_lt_upper_bound; [lia|].
    apply Z.div_lt_upper_bound; lia. }
  assert (Hcase : window_index cfg now' = window_index cfg t \/
                  window_index cfg now' - 1 = window_index cfg t) by lia.
  destruct Hcase as [-> | ->].
  - now rewrite String.eqb_refl.
  - rewrite (String.eqb_refl (expected_token _ _ _ (window_index cfg t))).
    now rewrite orb_true_r.
Qed.

Lemma token_accepted_through_next_window_witness :
  valid_action "IN" /\
  encodable "m1" /\ encodable (SECRET default_config) /\
  0 < TOKEN_WINDOW_SECONDS default_config /\
  exact_clock (issue_time 0 (Some 1000000000)) /\ exact_clock 1019999999 /\
  0 <= issue_time 0 (Some 1000000000) /\
  (issue_time 0 (Some 1000000000) <= 1019999999
     < (window_index default_config (issue_time 0 (Some 1000000000)) + 2)
       * TOKEN_WINDOW_SECONDS default_config * 1000000) /\
  exists token,
    generate_token default_config 0 "m1" "IN" (Some 1000000000) = Ok token /\
    verify_token default_config 1019999999 "m1" "IN" token = Ok true.
Proof.
  split; [left; reflexivity|]. split; [reflexivity|]. split; [reflexivity|].
  split; [cbn; lia|].
  split; [unfold exact_clock; cbn; lia|]. split; [unfold exact_clock; lia|].
  split; [cbn; lia|].
  split; [vm_compute; split; [discriminate | reflexivity]|].
  apply (token_accepted_through_next_window default_config 0 "m1" "IN"
           (Some 1000000000) 1019999999).
  - left; reflexivity.
  - reflexivity.
  - reflexivity.
  - cbn; lia.
  - unfold exact_clock; cbn; lia.
  - unfold exact_clock; lia.
  - cbn; lia.
  - vm_compute; split; [discriminate | reflexivity].
Defined.

(** X3. At any clock reading at most two token strings verify for a given
    member and action: of any three accepted tokens two are equal. *)
Theorem at_most_two_tokens_verify cfg clock member_id action token1 token2 token3 :
  verify_token cfg clock member_id action token1 = Ok true ->
  verify_token cfg clock member_id action token2 = Ok true ->
  verify_token cfg clock member_id action token3 = Ok true ->
  token1 = token2 \/ token1 = token3 \/ token2 = token3.
Proof.
  intros H1 H2 H3.
  apply verify_true_inv in H1 as (i1 & [E1 | E1] & ->);
    apply verify_true_inv in H2 as (i2 & [E2 | E2] & ->);
    apply verify_true_inv in H3 as (i3 & [E3 | E3] & ->); subst; auto.
Qed.

Lemma at_most_two_tokens_verify_witness :
  verify_token default_config 1015000000 "m1" "IN"
    "xXo3n6lHUVIXkjB4MZnCEXlXuQK9KyEwd_ItFycc1xA" = Ok true /\
  verify_token default_config 1015000000 "m1" "IN"
    "QnFXddw4XdzIX1DJ9YCU0b1-0vlL7DSjklVCjG0TyaY" = Ok true /\
  ("xXo3n6lHUVIXkjB4MZnCEXlXuQK9KyEwd_ItFycc1xA"
     = "QnFXddw4XdzIX1DJ9YCU0b1-0vlL7DSjklVCjG0TyaY" \/
   "xXo3n6lHUVIXkjB4MZnCEXlXuQK9KyEwd_ItFycc1xA"
     = "QnFXddw4XdzIX1DJ9YCU0b1-0vlL7DSjklVCjG0TyaY" \/
   "QnFXddw4XdzIX1DJ9YCU0b1-0vlL7DSjklVCjG0TyaY"
     = "QnFXddw4XdzIX1DJ9YCU0b1-0vlL7DSjklVCjG0TyaY").
Proof.
  split; [vm_compute; reflexivity|]. split; [vm_compute; reflexivity|].
  apply (at_most_two_tokens_verify default_config 1015000000 "m1" "IN"
           "xXo3n6lHUVIXkjB4MZnCEXlXuQK9KyEwd_ItFycc1xA"
           "QnFXddw4XdzIX1DJ9YCU0b1-0vlL7DSjklVCjG0TyaY"
           "QnFXddw4XdzIX1DJ9YCU0b1-0vlL7DSjklVCjG0TyaY");
    vm_compute; reflexivity.
Defined.

(** ** Secrets that denote the same key *)

(** X4. A secret shorter than 64 bytes and the same secret followed by a
    NUL byte are interchangeable: [generate_token] returns the same token
    and [verify_token] gives the same answer under either, for every
    member, action, token and time. *)
Theorem secret_trailing_nul_interchangeable cfg clock member_id action now token :
  (String.length (SECRET cfg) < 64)%nat ->
  generate_token (mkConfig (SECRET cfg ++ String "000" "")%string (TOKEN_WINDOW_SECONDS cfg))
    clock member_id action now
  = generate_token cfg clock member_id action now /\
  verify_token (mkConfig (SECRET cfg ++ String "000" "")%string (TOKEN_WINDOW_SECONDS cfg))
    clock member_id action token
  = verify_token cfg clock member_id action token.
Proof.
  intros Hlen. unfold generate_token, verify_token.
  cbn [SECRET TOKEN_WINDOW_SECONDS verify_loop]. unfold Py.encode. cbv zeta.
  rewrite !has_surrogate_nul.
  split.
  - destruct (negb _); [reflexivity|].
    destruct (Py.floordiv _ _); cbn [rbind]; [|reflexivity].
    destruct (Py.has_surrogate (format_msg _ _ _)); cbn [rbind]; [reflexivity|].
    destruct (Py.has_surrogate (SECRET cfg)); cbn [rbind]; [reflexivity|].
    now rewrite hmac_key_trailing_nul by assumption.
  - destruct (Py.floordiv _ _) as [ts|]; cbn [rbind]; [|reflexivity].
    rewrite !format_msg_surrogate.
    destruct (Py.has_surrogate member_id || Py.has_surrogate action);
      cbn [rbind]; [reflexivity|].
    destruct (Py.has_surrogate (SECRET cfg)); cbn [rbind]; [reflexivity|].
    now rewrite !hmac_key_trailing_nul by assumption.
Qed.

Lemma secret_trailing_nul_interchangeable_witness :
  (String.length (SECRET default_config) < 64)%nat /\
  generate_token
    (mkConfig (SECRET default_config ++ String "000" "")%string
       (TOKEN_WINDOW_SECONDS default_config)) 0 "m1" "IN" (Some 1000000000)
  = generate_token default_config 0 "m1" "IN" (Some 1000000000) /\
  verify_token
    (mkConfig (SECRET default_config ++ String "000" "")%string
       (TOKEN_WINDOW_SECONDS default_config)) 0 "m1" "IN" "abc"
  = verify_token default_config 0 "m1" "IN" "abc".
Proof.
  split; [cbn; lia|].
  apply (secret_trailing_nul_interchangeable default_config 0 "m1" "IN"
           (Some 1000000000) "abc").
  cbn; lia.
Defined.

(** ** Tokens that cannot be right *)

(** X16. An ASCII token that does not have the shape of a token - a
    length other than 43, the empty string included, or a character
    outside the URL-safe alphabet - is never accepted: [verify_token]
    answers false, for every time, unless the identifier, the action or
    the secret cannot be encoded, in which case it raises
    UnicodeEncodeError. *)
Theorem verify_token_refuses_misshapen cfg clock member_id action token :
  TOKEN_WINDOW_SECONDS cfg <> 0 ->
  Py.isascii token = true ->
  String.length token <> 43%nat \/ all_urlsafe token = false ->
  verify_token cfg clock member_id action token
  = if Py.has_surrogate member_id || Py.has_surrogate action || Py.has_surrogate (SECRET cfg)
    then Raise UnicodeEncodeError
    else Ok false.
Proof.
  intros Hw Hasc Hshape. rewrite verify_token_eval by assumption.
  destruct (Py.has_surrogate member_id || Py.has_surrogate action); [reflexivity|].
  cbn [orb]. destruct (Py.has_surrogate (SECRET cfg)); [reflexivity|].
  rewrite Hasc. f_equal.
  apply orb_false_iff. split; apply String.eqb_neq; intros E;
    match type of E with
    | expected_token ?c ?m ?a ?t = _ =>
        destruct (expected_token_shape c m a t) as [Hl Hu]
    end;
    rewrite E in Hl, Hu; destruct Hshape; congruence.
Qed.

Lemma verify_token_refuses_misshapen_witness :
  TOKEN_WINDOW_SECONDS default_config <> 0 /\
  Py.isascii "" = true /\
  (String.length "" <> 43%nat \/ all_urlsafe "" = false) /\
  verify_token default_config 1005000000 "m1" "IN" "" = Ok false.
Proof.
  split; [cbn; lia|]. split; [reflexivity|]. split; [left; discriminate|].
  apply (verify_token_refuses_misshapen default_config 1005000000 "m1" "IN" "").
  - cbn; lia.
  - reflexivity.
  - left; discriminate.
Defined.

(** ** The answers of the scanning endpoint *)

Ltac table_case :=
  try discriminate; try tauto;
  repeat match goal with
         | H : exists _, _ |- _ => destruct H
         | H : _ /\ _ |- _ => destruct H
         end;
  try discriminate; try congruence; eauto 10.

(** What [verify_token] can answer. *)
Lemma verify_token_answers cfg clock member_id action token :
  (exists b, verify_token cfg clock member_id action token = Ok b) \/
  verify_token cfg clock member_id action token = Raise TypeError \/
  verify_token cfg clock member_id action token = Raise ZeroDivisionError \/
  verify_token cfg clock member_id action token = Raise UnicodeEncodeError.
Proof.
  destruct (verify_token cfg clock member_id action token) as [b | e] eqn:Hv; [eauto|].
  destruct (verify_token_raises _ _ _ _ _ _ Hv) as [-> | [-> | ->]]; auto.
Qed.

(** X5. The decision table of [scan2], in the order the checks are made:
    500 without a database; otherwise 400 "Invalid action" for an action
    that is neither IN nor OUT (the token is not looked at); otherwise
    whatever [verify_token] raises - TypeError for a token that is not
    ASCII, ZeroDivisionError for a window length of 0, UnicodeEncodeError
    for an identifier or a secret that cannot be encoded - is raised
    unchanged; otherwise 401 when the token is refused; otherwise 400
    "Invalid member id" when [ObjectId] refuses the identifier; and ok in
    exactly the remaining case. [verify_token] has no other answers, so
    the rows are exhaustive. *)
Theorem scan2_decision_table cfg cv cn new_id member_id action token db :
  (fst (scan2 cfg cv cn new_id (AttendanceScan2.mk member_id action token) db)
     = Raise (HTTPException 500 "Database not configured") <-> db = None) /\
  (fst (scan2 cfg cv cn new_id (AttendanceScan2.mk member_id action token) db)
     = Raise (HTTPException 400 "Invalid action") <->
   db <> None /\ ~ valid_action action) /\
  (forall e, e = TypeError \/ e = ZeroDivisionError \/ e = UnicodeEncodeError ->
     (fst (scan2 cfg cv cn new_id (AttendanceScan2.mk member_id action token) db)
        = Raise e <->
      db <> None /\ valid_action action /\
      verify_token cfg cv member_id action token = Raise e)) /\
  (fst (scan2 cfg cv cn new_id (AttendanceScan2.mk member_id action token) db)
     = Raise (HTTPException 401 "Invalid or expired token") <->
   db <> None /\ valid_action action /\
   verify_token cfg cv member_id action token = Ok false) /\
  (fst (scan2 cfg cv cn new_id (AttendanceScan2.mk member_id action token) db)
     = Raise (HTTPException 400 "Invalid member id") <->
   db <> None /\ valid_action action /\
   verify_token cfg cv member_id action token = Ok true /\
   Bson.ObjectId_of_str member_id = None) /\
  (fst (scan2 cfg cv cn new_id (AttendanceScan2.mk member_id action token) db)
     = Ok [("status", "ok")] <->
   db <> None /\ valid_action action /\
   verify_token cfg cv member_id action token = Ok true /\
   Bson.ObjectId_of_str member_id <> None) /\
  ((exists b, verify_token cfg cv member_id action token = Ok b) \/
   verify_token cfg cv member_id action token = Raise TypeError \/
   verify_token cfg cv member_id action token = Raise ZeroDivisionError \/
   verify_token cfg cv member_id action token = Raise UnicodeEncodeError).
Proof.
  assert (Hrows :
    (fst (scan2 cfg cv cn new_id (AttendanceScan2.mk member_id action token) db)
       = Raise (HTTPException 500 "Database not configured") <-> db = None) /\
    (fst (scan2 cfg cv cn new_id (AttendanceScan2.mk member_id action token) db)
       = Raise (HTTPException 400 "Invalid action") <->
     db <> None /\ ~ valid_action action) /\
    (forall e, e = TypeError \/ e = ZeroDivisionError \/ e = UnicodeEncodeError ->
       (fst (scan2 cfg cv cn new_id (AttendanceScan2.mk member_id action token) db)
          = Raise e <->
        db <> None /\ valid_action action /\
        verify_token cfg cv member_id action token = Raise e)) /\
    (fst (scan2 cfg cv cn new_id (AttendanceScan2.mk member_id action token) db)
       = Raise (HTTPException 401 "Invalid or expired token") <->
     db <> None /\ valid_action action /\
     verify_token cfg cv member_id action token = Ok false) /\
    (fst (scan2 cfg cv cn new_id (AttendanceScan2.mk member_id action token) db)
       = Raise (HTTPException 400 "Invalid member id") <->
     db <> None /\ valid_action action /\
     verify_token cfg cv member_id action token = Ok true /\
     Bson.ObjectId_of_str member_id = None) /\
    (fst (scan2 cfg cv cn new_id (AttendanceScan2.mk member_id action token) db)
       = Ok [("status", "ok")] <->
     db <> None /\ valid_action action /\
     verify_token cfg cv member_id action token = Ok true /\
     Bson.ObjectId_of_str member_id <> None)).
  { destruct db as [d|].
    - destruct (valid_action_dec action) as [Ha | Ha].
      + destruct (verify_token cfg cv member_id action token) as [[|] | e] eqn:Hv.
        * rewrite (scan2_verified _ _ _ _ _ _ _ _ Ha Hv). unfold oid.
          destruct (Bson.ObjectId_of_str member_id); cbn [fst];
            repeat split; intros; table_case;
            repeat match goal with H : _ \/ _ |- _ => destruct H end; table_case.
        * rewrite (scan2_rejected _ _ _ _ _ _ _ _ Ha Hv). cbn [fst].
          repeat split; intros; table_case;
            repeat match goal with H : _ \/ _ |- _ => destruct H end; table_case.
        * rewrite (scan2_verify_raises _ _ _ _ _ _ _ _ _ Ha Hv). cbn [fst].
          destruct (verify_token_raises _ _ _ _ _ _ Hv) as [-> | [-> | ->]];
            repeat split; intros; table_case.
      + rewrite (scan2_invalid_action _ _ _ _ _ _ _ _ Ha). cbn [fst].
        repeat split; intros; table_case;
          repeat match goal with H : _ \/ _ |- _ => destruct H end; table_case.
    - rewrite scan2_no_db. cbn [fst].
      repeat split; intros; table_case;
        repeat match goal with H : _ \/ _ |- _ => destruct H end; table_case. }
  destruct Hrows as (H1 & H2 & H3 & H4 & H5 & H6).
  repeat (split; [assumption|]). apply verify_token_answers.
Qed.



(** ** Identifiers that [ObjectId] accepts *)

Lemma isspace_not_237 c : Bson.isspace c = true -> Ascii.eqb c "237" = false.
Proof.
  intros H. destruct (Ascii.eqb_spec c "237") as [-> |]; [discriminate H | reflexivity].
Qed.

Lemma hexval_not_237 c x : Bson.hexval c = Some x -> Ascii.eqb c "237" = false.
Proof.
  intros H. destruct (Ascii.eqb_spec c "237") as [-> |]; [discriminate H | reflexivity].
Qed.

Lemma fromhex_space c rest :
  Bson.isspace c = true -> Bson.fromhex (String c rest) = Bson.fromhex rest.
Proof. intros H. cbn [Bson.fromhex]. now rewrite H. Qed.

Lemma fromhex_pair c lo rest :
  Bson.isspace c = false ->
  Bson.fromhex (String c (String lo rest))
  = match Bson.hexval c, Bson.hexval lo, Bson.fromhex rest with
    | Some x, Some y, Some l => Some (16 * x + y :: l)
    | _, _, _ => None
    end.
Proof. intros H. cbn [Bson.fromhex]. now rewrite H. Qed.

Lemma fromhex_lone c : Bson.isspace c = false -> Bson.fromhex (String c "") = None.
Proof. intros H. cbn [Bson.fromhex]. now rewrite H. Qed.

(** What [bytes.fromhex] accepts is made of hexadecimal digits and
    whitespace, so it can be encoded. *)
Lemma fromhex_no_237 n :
  forall s l, (String.length s <= n)%nat -> Bson.fromhex s = Some l ->
              has_char "237" s = false.
Proof.
  induction n as [|n IH]; intros s l Hlen H.
  - destruct s; [reflexivity | cbn [String.length] in Hlen; lia].
  - destruct s as [|c rest]; [reflexivity|]. cbn [String.length] in Hlen.
    destruct (Bson.isspace c) eqn:Esp.
    + rewrite fromhex_space in H by assumption.
      cbn [has_char]. rewrite (isspace_not_237 _ Esp). cbn [orb].
      apply (IH rest l); [lia | assumption].
    + destruct rest as [|lo rest'];
        [rewrite fromhex_lone in H by assumption; discriminate|].
      rewrite fromhex_pair in H by assumption. cbn [String.length] in Hlen.
      destruct (Bson.hexval c) as [x|] eqn:E1; [|discriminate].
      destruct (Bson.hexval lo) as [y|] eqn:E2; [|discriminate].
      destruct (Bson.fromhex rest') as [l'|] eqn:E3; [|discriminate].
      cbn [has_char]. rewrite (hexval_not_237 _ _ E1), (hexval_not_237 _ _ E2). cbn [orb].
      apply (IH rest' l'); [lia | assumption].
Qed.

Lemma ObjectId_of_str_encodable s o : Bson.ObjectId_of_str s = Some o -> encodable s.
Proof.
  unfold Bson.ObjectId_of_str. destruct (String.length s =? 24)%nat; [|discriminate].
  destruct (Bson.fromhex s) as [l|] eqn:E; [|discriminate]. intros _.
  apply no_char_no_surrogate. apply (fromhex_no_237 (String.length s) s l); [lia | exact E].
Qed.

(** ** Issuing the QR tokens *)

Lemma get_member_qrs_eval cfg clock_in clock_out member_id d :
  TOKEN_WINDOW_SECONDS cfg <> 0 ->
  get_member_qrs cfg clock_in clock_out member_id (Some d)
  = match Bson.ObjectId_of_str member_id with
    | None => (Raise (HTTPException 400 "Invalid member id"), Some d)
    | Some o =>
        match Mongo.find_one o (member d) with
        | None => (Raise (HTTPException 404 "Member not found"), Some d)
        | Some _ =>
            if Py.has_surrogate (SECRET cfg) then (Raise UnicodeEncodeError, Some d)
            else
              (Ok (QrPair.mk
                     "IN" (expected_token cfg member_id "IN" (window_index cfg clock_in))
                     "OUT" (expected_token cfg member_id "OUT" (window_index cfg clock_out))
                     (TOKEN_WINDOW_SECONDS cfg)),
               Some d)
        end
    end.
Proof.
  intros Hw. unfold get_member_qrs, with_db, bind, lift, get, raise, ret, oid.
  destruct (Bson.ObjectId_of_str member_id) as [o|] eqn:Ho; [|reflexivity].
  destruct (Mongo.find_one o (member d)); [|reflexivity].
  pose proof (ObjectId_of_str_encodable _ _ Ho) as Hm.
  destruct (Py.has_surrogate (SECRET cfg)) eqn:Hs.
  - now rewrite (generate_token_encode_error cfg clock_in member_id "IN" None
                   (or_introl eq_refl) Hw (or_intror Hs)).
  - rewrite (generate_token_valid cfg clock_in member_id "IN" None
               (or_introl eq_refl) Hw Hm Hs).
    rewrite (generate_token_valid cfg clock_out member_id "OUT" None
               (or_intror eq_refl) Hw Hm Hs).
    reflexivity.
Qed.

(** X7. [get_member_qrs] only reads, and with a non-zero window length it
    answers in this order: 500 without a database, 400 for an identifier
    that [ObjectId] refuses (24 characters that are hexadecimal digit
    pairs, possibly with whitespace between the pairs, are accepted), 404
    when no member carries it, UnicodeEncodeError when the secret cannot
    be encoded, and otherwise the pair of tokens for IN and OUT of the
    current windows together with the window length. *)
Theorem get_member_qrs_decision_table cfg clock_in clock_out member_id db :
  TOKEN_WINDOW_SECONDS cfg <> 0 ->
  snd (get_member_qrs cfg clock_in clock_out member_id db) = db /\
  (fst (get_member_qrs cfg clock_in clock_out member_id db)
     = Raise (HTTPException 500 "Database not configured") <-> db = None) /\
  (fst (get_member_qrs cfg clock_in clock_out member_id db)
     = Raise (HTTPException 400 "Invalid member id") <->
   db <> None /\ Bson.ObjectId_of_str member_id = None) /\
  (fst (get_member_qrs cfg clock_in clock_out member_id db)
     = Raise (HTTPException 404 "Member not found") <->
   exists d o, db = Some d /\ Bson.ObjectId_of_str member_id = Some o /\
               Mongo.find_one o (member d) = None) /\
  (fst (get_member_qrs cfg clock_in clock_out member_id db)
     = Raise UnicodeEncodeError <->
   exists d o m, db = Some d /\ Bson.ObjectId_of_str member_id = Some o /\
                 Mongo.find_one o (member d) = Some m /\
                 Py.has_surrogate (SECRET cfg) = true) /\
  (fst (get_member_qrs cfg clock_in clock_out member_id db)
     = Ok (QrPair.mk
             "IN" (expected_token cfg member_id "IN" (window_index cfg clock_in))
             "OUT" (expected_token cfg member_id "OUT" (window_index cfg clock_out))
             (TOKEN_WINDOW_SECONDS cfg)) <->
   exists d o m, db = Some d /\ Bson.ObjectId_of_str member_id = Some o /\
                 Mongo.find_one o (member d) = Some m /\
                 Py.has_surrogate (SECRET cfg) = false).
Proof.
  intros Hw. destruct db as [d|].
  - rewrite (get_member_qrs_eval _ _ _ _ _ Hw).
    destruct (Bson.ObjectId_of_str member_id) as [o|] eqn:Ho;
      [destruct (Mongo.find_one o (member d)) as [m|] eqn:Hm;
       [destruct (Py.has_surrogate (SECRET cfg)) eqn:Hs|]|];
      cbn [fst snd]; repeat split; intros; table_case.
  - unfold get_member_qrs, with_db. cbn [fst snd]. repeat split; intros; table_case.
Qed.

Lemma get_member_qrs_decision_table_witness :
  TOKEN_WINDOW_SECONDS default_config <> 0 /\
  snd (get_member_qrs default_config 1000000000 1000000001
         "01 02 030405060708090a0b" (Some db_alice))
    = Some db_alice /\
  (fst (get_member_qrs default_config 1000000000 1000000001
          "01 02 030405060708090a0b" (Some db_alice))
     = Raise (HTTPException 500 "Database not configured") <-> Some db_alice = None) /\
  (fst (get_member_qrs default_config 1000000000 1000000001
          "01 02 030405060708090a0b" (Some db_alice))
     = Raise (HTTPException 400 "Invalid member id") <->
   Some db_alice <> None /\ Bson.ObjectId_of_str "01 02 030405060708090a0b" = None) /\
  (fst (get_member_qrs default_config 1000000000 1000000001
          "01 02 030405060708090a0b" (Some db_alice))
     = Raise (HTTPException 404 "Member not found") <->
   exists d o, Some db_alice = Some d /\
               Bson.ObjectId_of_str "01 02 030405060708090a0b" = Some o /\
               Mongo.find_one o (member d) = None) /\
  (fst (get_member_qrs default_config 1000000000 1000000001
          "01 02 030405060708090a0b" (Some db_alice))
     = Raise UnicodeEncodeError <->
   exists d o m, Some db_alice = Some d /\
                 Bson.ObjectId_of_str "01 02 030405060708090a0b" = Some o /\
                 Mongo.find_one o (member d) = Some m /\
                 Py.has_surrogate (SECRET default_config) = true) /\
  (fst (get_member_qrs default_config 1000000000 1000000001
          "01 02 030405060708090a0b" (Some db_alice))
     = Ok (QrPair.mk
             "IN" (expected_token default_config "01 02 030405060708090a0b" "IN"
                     (window_index default_config 1000000000))
             "OUT" (expected_token default_config "01 02 030405060708090a0b" "OUT"
                      (window_index default_config 1000000001))
             (TOKEN_WINDOW_SECONDS default_config)) <->
   exists d o m, Some db_alice = Some d /\
                 Bson.ObjectId_of_str "01 02 030405060708090a0b" = Some o /\
                 Mongo.find_one o (member d) = Some m /\
                 Py.has_surrogate (SECRET default_config) = false).
Proof.
  split; [cbn; lia|].
  apply (get_member_qrs_decision_table default_config 1000000000 1000000001
           "01 02 030405060708090a0b" (Some db_alice)).
  cbn; lia.
Defined.

(** An identifier of 24 characters with whitespace between the digit
    pairs passes [oid]: it denotes the 11 bytes 01..0b, which no member
    carries, and the answer is 404, not 400. *)
Example get_member_qrs_whitespace_id :
  Bson.ObjectId_of_str "01 02 030405060708090a0b"
    = Some (Py.of_list [1; 2; 3; 4; 5; 6; 7; 8; 9; 10; 11]) /\
  get_member_qrs default_config 1000000000 1000000001 "01 02 030405060708090a0b"
    (Some db_alice)
  = (Raise (HTTPException 404 "Member not found"), Some db_alice).
Proof. split; vm_compute; reflexivity. Qed.

(** X8. Issue, then scan: for a registered member, a secret that can be
    encoded and clock readings whose seconds the double keeps exactly,
    the IN token that [get_member_qrs] hands out is accepted by [scan2]
    at any time within one window length of its issue and marks the
    member present, with [last_in] the scan time as the store keeps it;
    the OUT token likewise marks the member absent. *)
Theorem issued_tokens_are_accepted cfg clock_in clock_out cv cn new_id member_id d o m :
  Bson.ObjectId_of_str member_id = Some o ->
  Mongo.find_one o (member d) = Some m ->
  encodable (SECRET cfg) ->
  exact_clock clock_in -> exact_clock clock_out -> exact_clock cv ->
  clock_in <= cv < clock_in + TOKEN_WINDOW_SECONDS cfg * 1000000 ->
  clock_out <= cv < clock_out + TOKEN_WINDOW_SECONDS cfg * 1000000 ->
  exists pair d_in m_in d_out m_out,
    get_member_qrs cfg clock_in clock_out member_id (Some d) = (Ok pair, Some d) /\
    scan2 cfg cv cn new_id
      (AttendanceScan2.mk member_id (QrPair.in_action pair) (QrPair.in_token pair)) (Some d)
      = (Ok [("status", "ok")], Some d_in) /\
    Mongo.find_one o (member d_in) = Some m_in /\
    Member.present m_in = true /\ Member.last_in m_in = Some (Mongo.bson_datetime cn) /\
    scan2 cfg cv cn new_id
      (AttendanceScan2.mk member_id (QrPair.out_action pair) (QrPair.out_token pair)) (Some d)
      = (Ok [("status", "ok")], Some d_out) /\
    Mongo.find_one o (member d_out) = Some m_out /\
    Member.present m_out = false /\ Member.last_out m_out = Some (Mongo.bson_datetime cn).
Proof.
  intros Ho Hm Hs Ein Eout Ecv Hin Hout.
  assert (Hw : TOKEN_WINDOW_SECONDS cfg <> 0) by lia.
  pose proof (ObjectId_of_str_encodable _ _ Ho) as Hid.
  eexists _, _, _, _, _.
  rewrite (get_member_qrs_eval _ _ _ _ _ Hw), Ho, Hm. unfold encodable in Hs. rewrite Hs.
  split; [reflexivity|].
  cbn [QrPair.in_action QrPair.in_token QrPair.out_action QrPair.out_token].
  rewrite (scan2_verified cfg cv cn new_id member_id "IN" _ d (or_introl eq_refl)
             (verify_generated cfg member_id "IN" clock_in cv Hid (or_introl eq_refl)
                Hs Ein Ecv Hin)).
  rewrite (scan2_verified cfg cv cn new_id member_id "OUT" _ d (or_intror eq_refl)
             (verify_generated cfg member_id "OUT" clock_out cv Hid (or_intror eq_refl)
                Hs Eout Ecv Hout)).
  rewrite (oid_of_str _ _ Ho). cbn [member].
  split; [reflexivity|].
  split; [apply find_one_update_one, Hm|].
  split; [reflexivity|]. split; [reflexivity|].
  split; [reflexivity|].
  split; [apply find_one_update_one, Hm|].
  split; reflexivity.
Qed.

Lemma issued_tokens_are_accepted_witness :
  Bson.ObjectId_of_str "0102030405060708090a0bff" = Some alice_id /\
  Mongo.find_one alice_id (member db_club) = Some alice_seen /\
  encodable (SECRET default_config) /\
  exact_clock 1000000000 /\ exact_clock 1000000001 /\ exact_clock 1005000000 /\
  (1000000000 <= 1005000000 < 1000000000 + TOKEN_WINDOW_SECONDS default_config * 1000000) /\
  (1000000001 <= 1005000000 < 1000000001 + TOKEN_WINDOW_SECONDS default_config * 1000000) /\
  exists pair d_in m_in d_out m_out,
    get_member_qrs default_config 1000000000 1000000001 "0102030405060708090a0bff"
      (Some db_club) = (Ok pair, Some db_club) /\
    scan2 default_config 1005000000 1005000001 fresh_id
      (AttendanceScan2.mk "0102030405060708090a0bff" (QrPair.in_action pair)
         (QrPair.in_token pair)) (Some db_club)
      = (Ok [("status", "ok")], Some d_in) /\
    Mongo.find_one alice_id (member d_in) = Some m_in /\
    Member.present m_in = true /\
    Member.last_in m_in = Some (Mongo.bson_datetime 1005000001) /\
    scan2 default_config 1005000000 1005000001 fresh_id
      (AttendanceScan2.mk "0102030405060708090a0bff" (QrPair.out_action pair)
         (QrPair.out_token pair)) (Some db_club)
      = (Ok [("status", "ok")], Some d_out) /\
    Mongo.find_one alice_id (member d_out) = Some m_out /\
    Member.present m_out = false /\
    Member.last_out m_out = Some (Mongo.bson_datetime 1005000001).
Proof.
  split; [vm_compute; reflexivity|]. split; [vm_compute; reflexivity|].
  split; [reflexivity|].
  split; [unfold exact_clock; lia|]. split; [unfold exact_clock; lia|].
  split; [unfold exact_clock; lia|].
  split; [cbn; lia|]. split; [cbn; lia|].
  apply (issued_tokens_are_accepted default_config 1000000000 1000000001 1005000000
           1005000001 fresh_id "0102030405060708090a0bff" db_club alice_id alice_seen).
  - vm_compute; reflexivity.
  - vm_compute; reflexivity.
  - reflexivity.
  - unfold exact_clock; lia.
  - unfold exact_clock; lia.
  - unfold exact_clock; lia.
  - cbn; lia.
  - cbn; lia.
Defined.

(** ** Registering a member *)

Lemma ord_byte c : is_byte (Py.ord c).
Proof.
  unfold is_byte, Py.ord. pose proof (N_ascii_bounded c). lia.
Qed.

Lemma of_list_to_list b : Py.of_list (Py.to_list b) = b.
Proof.
  unfold Py.of_list, Py.to_list. rewrite map_map.
  rewrite <- (string_of_list_ascii_of_string b) at 2. f_equal.
  induction (list_ascii_of_string b) as [|c l IH]; cbn [map]; [reflexivity|].
  rewrite IH. f_equal. unfold Py.chr, Py.ord.
  pose proof (N_ascii_bounded c).
  rewrite Z.mod_small by lia. rewrite N2Z.id. apply ascii_N_embedding.
Qed.

Lemma hexdigit_spec k :
  0 <= k < 16 ->
  Bson.hexval (Py.hexdigit k) = Some k /\ Bson.isspace (Py.hexdigit k) = false.
Proof.
  intros Hk.
  assert (Hall : forallb (fun k => match Bson.hexval (Py.hexdigit k) with
                                   | Some k' => (k' =? k) && negb (Bson.isspace (Py.hexdigit k))
                                   | None => false
                                   end) (map Z.of_nat (seq 0 16)) = true) by reflexivity.
  rewrite forallb_forall in Hall.
  assert (Hin : In k (map Z.of_nat (seq 0 16))).
  { rewrite <- (Z2Nat.id k) by lia. apply in_map, in_seq. lia. }
  specialize (Hall k Hin). destruct (Bson.hexval (Py.hexdigit k)) as [k'|]; [|discriminate].
  apply andb_true_iff in Hall as [H1 H2]. apply Z.eqb_eq in H1. subst k'.
  split; [reflexivity|]. now destruct (Bson.isspace (Py.hexdigit k)).
Qed.

Lemma fromhex_hex l :
  Forall is_byte l ->
  Bson.fromhex (string_of_list_ascii
                  (flat_map (fun z => [Py.hexdigit (z / 16); Py.hexdigit (z mod 16)]) l))
  = Some l.
Proof.
  induction 1 as [|z l Hz _ IH]; [reflexivity|].
  cbn [flat_map app string_of_list_ascii].
  unfold is_byte in Hz.
  destruct (hexdigit_spec (z / 16)) as [Hhi Hsp];
    [Z.to_euclidean_division_equations; lia|].
  destruct (hexdigit_spec (z mod 16)) as [Hlo _];
    [Z.to_euclidean_division_equations; lia|].
  rewrite fromhex_pair by assumption. rewrite Hhi, Hlo, IH.
  do 2 f_equal. Z.to_euclidean_division_equations; lia.
Qed.

Lemma hex_length b : String.length (Py.hex b) = (2 * String.length b)%nat.
Proof.
  unfold Py.hex, Py.to_list.
  induction b as [|c b IH]; [reflexivity|].
  cbn [list_ascii_of_string map flat_map app string_of_list_ascii String.length].
  rewrite IH. lia.
Qed.

(** The text of a 12-byte identifier reads back as the identifier. *)
Lemma ObjectId_text_roundtrip o :
  String.length o = 12%nat ->
  Bson.ObjectId_of_str (Bson.str_of_ObjectId o) = Some o.
Proof.
  intros Hlen. unfold Bson.ObjectId_of_str, Bson.str_of_ObjectId.
  rewrite hex_length, Hlen. cbn [Nat.mul Nat.add Nat.eqb].
  unfold Py.hex. rewrite fromhex_hex.
  - cbn [option_map]. now rewrite of_list_to_list.
  - unfold Py.to_list. apply Forall_forall. intros z Hz.
    apply in_map_iff in Hz as (c & <- & _). apply ord_byte.
Qed.

Lemma find_one_app o l x :
  Mongo.find_one o (l ++ [x])
  = match Mongo.find_one o l with
    | Some m => Some m
    | None => if Bson.id_matches o (Member._id x) then Some x else None
    end.
Proof.
  unfold Mongo.find_one.
  induction l as [|y l IH]; cbn [app find]; [reflexivity|].
  destruct (Bson.id_matches o (Member._id y)); [reflexivity | exact IH].
Qed.

Lemma create_member_eval clock1 clock2 new_id name d :
  create_member clock1 clock2 new_id (MemberCreate.mk name) (Some d)
  = (Ok (Member.mk (Bson.IdString (Bson.str_of_ObjectId new_id)) name
           false None None clock1 clock2),
     Some (mkDatabase (member d ++ [new_member new_id name clock1 clock2])
                      (attendance d))).
Proof. reflexivity. Qed.

(** X9. Registering a member with a new 12-byte identifier: the answer
    carries the two clock readings and the identifier as text that reads
    back as the identifier; the member is then found under it, absent,
    without check-in or check-out time and with the two clock readings
    rounded down to the millisecond; the members already stored are found
    as before and the attendance log is untouched. *)
Theorem create_member_then_lookup clock1 clock2 new_id name d :
  String.length new_id = 12%nat ->
  Mongo.find_one new_id (member d) = None ->
  exists doc d',
    create_member clock1 clock2 new_id (MemberCreate.mk name) (Some d)
      = (Ok doc, Some d') /\
    Member._id doc = Bson.IdString (Bson.str_of_ObjectId new_id) /\
    Member.created_at doc = clock1 /\ Member.updated_at doc = clock2 /\
    Bson.ObjectId_of_str (Bson.str_of_ObjectId new_id) = Some new_id /\
    Mongo.find_one new_id (member d')
      = Some (Member.mk (Bson.IdObject new_id) name false None None
                (Mongo.bson_datetime clock1) (Mongo.bson_datetime clock2)) /\
    (forall o, o <> new_id -> Mongo.find_one o (member d') = Mongo.find_one o (member d)) /\
    attendance d' = attendance d.
Proof.
  intros Hlen Hnew. eexists _, _.
  rewrite create_member_eval. split; [reflexivity|].
  cbn [Member._id Member.created_at Member.updated_at member attendance].
  split; [reflexivity|]. split; [reflexivity|]. split; [reflexivity|].
  split; [now apply ObjectId_text_roundtrip|].
  split.
  - rewrite find_one_app, Hnew. unfold new_member, Mongo.encode_member.
    cbn [Member._id Bson.id_matches]. now rewrite String.eqb_refl.
  - split; [|reflexivity].
    intros o Ho. rewrite find_one_app.
    destruct (Mongo.find_one o (member d)); [reflexivity|].
    unfold new_member, Mongo.encode_member. cbn [Member._id Bson.id_matches].
    destruct (String.eqb_spec new_id o); [congruence | reflexivity].
Qed.

Lemma create_member_then_lookup_witness :
  String.length fresh_id = 12%nat /\
  Mongo.find_one fresh_id (member db_club) = None /\
  exists doc d',
    create_member 950000123 950000456 fresh_id (MemberCreate.mk "Carol") (Some db_club)
      = (Ok doc, Some d') /\
    Member._id doc = Bson.IdString (Bson.str_of_ObjectId fresh_id) /\
    Member.created_at doc = 950000123 /\ Member.updated_at doc = 950000456 /\
    Bson.ObjectId_of_str (Bson.str_of_ObjectId fresh_id) = Some fresh_id /\
    Mongo.find_one fresh_id (member d')
      = Some (Member.mk (Bson.IdObject fresh_id) "Carol" false None None
                (Mongo.bson_datetime 950000123) (Mongo.bson_datetime 950000456)) /\
    (forall o, o <> fresh_id ->
               Mongo.find_one o (member d') = Mongo.find_one o (member db_club)) /\
    attendance d' = attendance db_club.
Proof.
  split; [reflexivity|]. split; [reflexivity|].
  apply (create_member_then_lookup 950000123 950000456 fresh_id "Carol" db_club);
    reflexivity.
Defined.

(** X10. Register, issue, scan: the identifier text that [create_member]
    answers is accepted by [get_member_qrs], and the IN token issued for
    it, scanned within one window length, is accepted by [scan2] and
    leaves a member present under that identifier, with [last_in] the
    scan time as the store keeps it; for a secret that can be encoded and
    clock readings whose seconds the double keeps exactly. *)
Theorem create_issue_scan cfg clock1 clock2 clock_in clock_out cv cn new_id scan_id name d :
  String.length new_id = 12%nat ->
  encodable (SECRET cfg) ->
  exact_clock clock_in -> exact_clock cv ->
  clock_in <= cv < clock_in + TOKEN_WINDOW_SECONDS cfg * 1000000 ->
  exists doc d1 id_text pair d2 m,
    create_member clock1 clock2 new_id (MemberCreate.mk name) (Some d)
      = (Ok doc, Some d1) /\
    Member._id doc = Bson.IdString id_text /\
    get_member_qrs cfg clock_in clock_out id_text (Some d1) = (Ok pair, Some d1) /\
    scan2 cfg cv cn scan_id
      (AttendanceScan2.mk id_text "IN" (QrPair.in_token pair)) (Some d1)
      = (Ok [("status", "ok")], Some d2) /\
    Mongo.find_one new_id (member d2) = Some m /\
    Member.present m = true /\ Member.last_in m = Some (Mongo.bson_datetime cn).
Proof.
  intros Hlen Hs Ein Ecv Hin.
  assert (Hw : TOKEN_WINDOW_SECONDS cfg <> 0) by lia.
  pose proof (ObjectId_text_roundtrip new_id Hlen) as Hrt.
  pose proof (ObjectId_of_str_encodable _ _ Hrt) as Hid.
  set (l1 := member d ++ [new_member new_id name clock1 clock2]).
  assert (Hfind : exists m0, Mongo.find_one new_id l1 = Some m0).
  { unfold l1. rewrite find_one_app.
    destruct (Mongo.find_one new_id (member d)); [eauto|].
    unfold new_member, Mongo.encode_member. cbn [Member._id Bson.id_matches].
    rewrite String.eqb_refl. eauto. }
  destruct Hfind as [m0 Hm0].
  exists (Member.mk (Bson.IdString (Bson.str_of_ObjectId new_id)) name
            false None None clock1 clock2).
  exists (mkDatabase l1 (attendance d)), (Bson.str_of_ObjectId new_id).
  eexists _, _, _.
  split; [apply create_member_eval|].
  split; [reflexivity|].
  rewrite (get_member_qrs_eval _ _ _ _ _ Hw), Hrt. cbn [member]. rewrite Hm0.
  unfold encodable in Hs. rewrite Hs.
  split; [reflexivity|]. cbn [QrPair.in_token].
  rewrite (scan2_verified cfg cv cn scan_id _ "IN" _ _ (or_introl eq_refl)
             (verify_generated cfg _ "IN" clock_in cv Hid (or_introl eq_refl)
                Hs Ein Ecv Hin)).
  rewrite (oid_of_str _ _ Hrt). cbn [member].
  split; [reflexivity|].
  split; [apply find_one_update_one, Hm0|].
  split; reflexivity.
Qed.

Lemma create_issue_scan_witness :
  String.length fresh_id = 12%nat /\
  encodable (SECRET default_config) /\
  exact_clock 1000000000 /\ exact_clock 1005000000 /\
  (1000000000 <= 1005000000 < 1000000000 + TOKEN_WINDOW_SECONDS default_config * 1000000) /\
  exists doc d1 id_text pair d2 m,
    create_member 950000123 950000456 fresh_id (MemberCreate.mk "Carol") (Some db_club)
      = (Ok doc, Some d1) /\
    Member._id doc = Bson.IdString id_text /\
    get_member_qrs default_config 1000000000 1000000001 id_text (Some d1)
      = (Ok pair, Some d1) /\
    scan2 default_config 1005000000 1005000001 alice_id
      (AttendanceScan2.mk id_text "IN" (QrPair.in_token pair)) (Some d1)
      = (Ok [("status", "ok")], Some d2) /\
    Mongo.find_one fresh_id (member d2) = Some m /\
    Member.present m = true /\ Member.last_in m = Some (Mongo.bson_datetime 1005000001).
Proof.
  split; [reflexivity|]. split; [reflexivity|].
  split; [unfold exact_clock; lia|]. split; [unfold exact_clock; lia|].
  split; [cbn; lia|].
  apply (create_issue_scan default_config 950000123 950000456 1000000000 1000000001
           1005000000 1005000001 fresh_id alice_id "Carol" db_club).
  - reflexivity.
  - reflexivity.
  - unfold exact_clock; lia.
  - unfold exact_clock; lia.
  - cbn; lia.
Defined.

(** ** The presence flag follows the log *)

Lemma flag_of_log_app o log r :
  flag_of_log o (log ++ [r])
  = if record_of o r then String.eqb (Attendance.action r) "IN" else flag_of_log o log.
Proof. unfold flag_of_log. now rewrite fold_left_app. Qed.

Lemma id_matches_true o v : Bson.id_matches o v = true -> v = Bson.IdObject o.
Proof.
  destruct v as [o' | s]; cbn [Bson.id_matches]; [|discriminate].
  intros H. apply String.eqb_eq in H. now subst.
Qed.

Lemma update_one_ids o u l :
  map Member._id (Mongo.update_one o u l) = map Member._id l.
Proof.
  induction l as [|x l IH]; cbn [Mongo.update_one map]; [reflexivity|].
  destruct (Bson.id_matches o (Member._id x)); cbn [map]; [reflexivity | now rewrite IH].
Qed.

(** With distinct identifiers, an update touches the one document that
    carries the identifier and nothing else. *)
Lemma in_update_one o u l m' :
  NoDup (map Member._id l) -> In m' (Mongo.update_one o u l) ->
  (In m' l /\ Bson.id_matches o (Member._id m') = false) \/
  (exists m, In m l /\ Bson.id_matches o (Member._id m) = true /\
             m' = Mongo.set_fields u m).
Proof.
  induction l as [|x l IH]; cbn [Mongo.update_one map]; [intros _ []|].
  intros Hnd Hin. inversion Hnd as [|? ? Hx Hnd']; subst.
  destruct (Bson.id_matches o (Member._id x)) eqn:E.
  - destruct Hin as [<- | Hin].
    + right. exists x. repeat split; [now left | assumption].
    + left. split; [now right|].
      destruct (Bson.id_matches o (Member._id m')) eqn:E'; [|reflexivity].
      exfalso. apply Hx.
      apply id_matches_true in E, E'. rewrite E, <- E'. now apply in_map.
  - destruct Hin as [<- | Hin].
    + left. split; [now left | assumption].
    + destruct (IH Hnd' Hin) as [[H1 H2] | (m & H1 & H2 & H3)].
      * left. split; [now right | assumption].
      * right. exists m. repeat split; [now right | assumption | assumption].
Qed.

(** X11. [scan2] keeps the presence flags in step with the log: if no two
    members share an identifier and every member's flag is what replaying
    the log gives (present iff the member's last record is an IN), the
    same holds after any call of [scan2], accepted or refused, including
    the call that fails after inserting its record. *)
Theorem scan2_keeps_flags_consistent cfg cv cn new_id payload d r d' :
  consistent d ->
  scan2 cfg cv cn new_id payload (Some d) = (r, Some d') ->
  consistent d'.
Proof.
  intros [Hnd Hflags] Hrun.
  destruct payload as [member_id action token].
  destruct (valid_action_dec action) as [Ha | Ha];
    [|rewrite (scan2_invalid_action _ _ _ _ _ _ _ _ Ha) in Hrun;
      injection Hrun as _ <-; now split].
  destruct (verify_token cfg cv member_id action token) as [[|] | e] eqn:Hv;
    [|rewrite (scan2_rejected _ _ _ _ _ _ _ _ Ha Hv) in Hrun;
      injection Hrun as _ <-; now split
     |rewrite (scan2_verify_raises _ _ _ _ _ _ _ _ _ Ha Hv) in Hrun;
      injection Hrun as _ <-; now split].
  rewrite (scan2_verified _ _ _ _ _ _ _ _ Ha Hv) in Hrun. unfold oid in Hrun.
  destruct (Bson.ObjectId_of_str member_id) as [o|] eqn:Ho;
    injection Hrun as _ <-; split; cbn [member attendance].
  - now rewrite update_one_ids.
  - intros m' o2 Hin Hid. rewrite flag_of_log_app.
    unfold record_of, scan_att, Mongo.encode_attendance.
    cbn [Attendance.member_id Attendance.action]. rewrite Ho.
    destruct (in_update_one _ _ _ _ Hnd Hin) as [[Hl Hno] | (m & Hl & Hyes & ->)].
    + rewrite Hid in Hno. cbn [Bson.id_matches] in Hno.
      rewrite String.eqb_sym, Hno. now apply Hflags.
    + rewrite set_fields_id in Hid. apply id_matches_true in Hyes.
      assert (o2 = o) by congruence. subst o2.
      now rewrite String.eqb_refl, scan_upd_present.
  - exact Hnd.
  - intros m o2 Hin Hid. rewrite flag_of_log_app.
    unfold record_of, scan_att, Mongo.encode_attendance.
    cbn [Attendance.member_id]. rewrite Ho.
    now apply Hflags.
Qed.

Lemma consistent_db_alice : consistent db_alice.
Proof.
  split; cbn [db_alice member attendance map].
  - repeat constructor. intros [].
  - intros m o [<- | []] _. reflexivity.
Qed.

Lemma scan2_keeps_flags_consistent_witness :
  consistent db_alice /\
  scan2 default_config 1005000000 1005000001 fresh_id
    (AttendanceScan2.mk "0102030405060708090a0bff" "IN"
       "YKYUUhl_DNwfKDmBTkYzpG9WLPcEL-PUqLn7-EfWxys") (Some db_alice)
  = (Ok [("status", "ok")],
     Some (mkDatabase
             [Member.mk (Bson.IdObject alice_id) "Alice" true (Some 1005000000) None
                900000000 1005000000]
             [scan_att fresh_id "0102030405060708090a0bff" "IN" 1005000001])) /\
  consistent
    (mkDatabase
       [Member.mk (Bson.IdObject alice_id) "Alice" true (Some 1005000000) None
          900000000 1005000000]
       [scan_att fresh_id "0102030405060708090a0bff" "IN" 1005000001]).
Proof.
  split; [exact consistent_db_alice|].
  split; [vm_compute; reflexivity|].
  apply (scan2_keeps_flags_consistent default_config 1005000000 1005000001 fresh_id
           (AttendanceScan2.mk "0102030405060708090a0bff" "IN"
              "YKYUUhl_DNwfKDmBTkYzpG9WLPcEL-PUqLn7-EfWxys")
           db_alice (Ok [("status", "ok")])).
  - exact consistent_db_alice.
  - vm_compute; reflexivity.
Defined.

(** X12. [create_member] keeps the presence flags in step with the log,
    provided the new identifier is carried by no member yet and the log
    does not already prescribe presence for it (as when it holds no
    record of that identifier). *)
Theorem create_member_keeps_flags_consistent clock1 clock2 new_id payload d r d' :
  consistent d ->
  ~ In (Bson.IdObject new_id) (map Member._id (member d)) ->
  flag_of_log new_id (attendance d) = false ->
  create_member clock1 clock2 new_id payload (Some d) = (r, Some d') ->
  consistent d'.
Proof.
  intros [Hnd Hflags] Hnew Hlog Hrun. destruct payload as [name].
  rewrite create_member_eval in Hrun. injection Hrun as _ <-.
  split; cbn [member attendance].
  - rewrite map_app. cbn [map].
    apply (Permutation_NoDup (Permutation_cons_append _ _)).
    constructor; assumption.
  - intros m o Hin Hid. apply in_app_or in Hin as [Hin | [<- | []]].
    + now apply Hflags.
    + unfold new_member, Mongo.encode_member in *. cbn [Member._id Member.present] in *.
      injection Hid as <-. now rewrite Hlog.
Qed.

Lemma create_member_keeps_flags_consistent_witness :
  consistent db_alice /\
  ~ In (Bson.IdObject fresh_id) (map Member._id (member db_alice)) /\
  flag_of_log fresh_id (attendance db_alice) = false /\
  create_member 950000000 950000001 fresh_id (MemberCreate.mk "Bob") (Some db_alice)
  = (Ok (Member.mk (Bson.IdString (Bson.str_of_ObjectId fresh_id)) "Bob"
           false None None 950000000 950000001),
     Some (mkDatabase [alice; new_member fresh_id "Bob" 950000000 950000001] [])) /\
  consistent (mkDatabase [alice; new_member fresh_id "Bob" 950000000 950000001] []).
Proof.
  split; [exact consistent_db_alice|].
  split; [cbn; intros [H | []]; discriminate H|].
  split; [reflexivity|].
  split; [reflexivity|].
  apply (create_member_keeps_flags_consistent 950000000 950000001 fresh_id
           (MemberCreate.mk "Bob") db_alice
           (Ok (Member.mk (Bson.IdString (Bson.str_of_ObjectId fresh_id)) "Bob"
                  false None None 950000000 950000001))).
  - exact consistent_db_alice.
  - cbn; intros [H | []]; discriminate H.
  - reflexivity.
  - reflexivity.
Defined.

(** ** What the listings show after a scan *)




(** A scan within the millisecond of the member's latest record is not
    later in the store: the two records carry the same timestamp. *)
Example scan_within_the_millisecond :
  exists d',
    scan2 default_config 1005000000 1005000999 alice_id
      (AttendanceScan2.mk "0102030405060708090a0bff" "OUT"
         "-JJ1KyBL1gZPBoXCjPjpxWujzLZlVMueqQvFsXxJO1I") (Some db_club)
      = (Ok [("status", "ok")], Some d') /\
    map Attendance.timestamp (attendance d') = [1005000000; 1005000000].
Proof.
  eexists. split; vm_compute; reflexivity.
Qed.

Lemma list_members_eval d :
  list_members (Some d)
  = (Ok (map (fun m =>
                MemberListed.mk
                  (Member.mk (Bson.stringify (Member._id m)) (Member.name m)
                     (Member.present m) (Member.last_in m) (Member.last_out m)
                     (Member.created_at m) (Member.updated_at m))
                  (if Member.present m then "Present" else "Absent"))
             (member d)),
     Some d).
Proof. reflexivity. Qed.

Lemma find_one_in o l m :
  Mongo.find_one o l = Some m -> In m l /\ Member._id m = Bson.IdObject o.
Proof.
  unfold Mongo.find_one. intros H. apply find_some in H as [Hin Hid].
  split; [assumption | now apply id_matches_true].
Qed.

(** X14. Scan, then list the members: after an accepted scan of a
    registered member, [list_members] changes nothing and shows an entry
    with the member's identifier as text and unchanged name whose status
    is "Present" after an IN and "Absent" after an OUT; it has one entry
    per member document. *)
Theorem scan_then_list_members cfg cv cn new_id member_id action token d o m :
  valid_action action ->
  verify_token cfg cv member_id action token = Ok true ->
  Bson.ObjectId_of_str member_id = Some o ->
  Mongo.find_one o (member d) = Some m ->
  exists d' entries entry,
    scan2 cfg cv cn new_id (AttendanceScan2.mk member_id action token) (Some d)
      = (Ok [("status", "ok")], Some d') /\
    list_members (Some d') = (Ok entries, Some d') /\
    List.length entries = List.length (member d) /\
    In entry entries /\
    Member._id (MemberListed.doc entry) = Bson.IdString (Bson.str_of_ObjectId o) /\
    Member.name (MemberListed.doc entry) = Member.name m /\
    (action = "IN" -> MemberListed.status entry = "Present") /\
    (action = "OUT" -> MemberListed.status entry = "Absent").
Proof.
  intros Ha Hv Ho Hm.
  pose proof (find_one_update_one o (scan_upd action cn) _ _ Hm) as Hm'.
  apply find_one_in in Hm' as [Hin' Hid'].
  eexists _, _, _.
  rewrite (scan2_verified _ _ _ _ _ _ _ _ Ha Hv), (oid_of_str _ _ Ho).
  split; [reflexivity|].
  rewrite list_members_eval. cbn [member].
  split; [reflexivity|].
  split; [now rewrite length_map, update_one_length|].
  split; [apply in_map, Hin'|].
  cbn [MemberListed.doc MemberListed.status Member._id Member.name].
  rewrite Hid'. split; [reflexivity|]. split; [reflexivity|].
  rewrite scan_upd_present. split; intros ->; reflexivity.
Qed.

Lemma scan_then_list_members_witness :
  valid_action "IN" /\
  verify_token default_config 1005000000 "0102030405060708090a0bff" "IN"
    "YKYUUhl_DNwfKDmBTkYzpG9WLPcEL-PUqLn7-EfWxys" = Ok true /\
  Bson.ObjectId_of_str "0102030405060708090a0bff" = Some alice_id /\
  Mongo.find_one alice_id (member db_alice) = Some alice /\
  exists d' entries entry,
    scan2 default_config 1005000000 1005000001 fresh_id
      (AttendanceScan2.mk "0102030405060708090a0bff" "IN"
         "YKYUUhl_DNwfKDmBTkYzpG9WLPcEL-PUqLn7-EfWxys") (Some db_alice)
      = (Ok [("status", "ok")], Some d') /\
    list_members (Some d') = (Ok entries, Some d') /\
    List.length entries = List.length (member db_alice) /\
    In entry entries /\
    Member._id (MemberListed.doc entry) = Bson.IdString (Bson.str_of_ObjectId alice_id) /\
    Member.name (MemberListed.doc entry) = Member.name alice /\
    ("IN" = "IN" -> MemberListed.status entry = "Present") /\
    ("IN" = "OUT" -> MemberListed.status entry = "Absent").
Proof.
  split; [left; reflexivity|].
  split; [vm_compute; reflexivity|].
  split; [vm_compute; reflexivity|].
  split; [vm_compute; reflexivity|].
  apply (scan_then_list_members default_config 1005000000 1005000001 fresh_id
           "0102030405060708090a0bff" "IN" "YKYUUhl_DNwfKDmBTkYzpG9WLPcEL-PUqLn7-EfWxys"
           db_alice alice_id alice).
  - left; reflexivity.
  - vm_compute; reflexivity.
  - vm_compute; reflexivity.
  - vm_compute; reflexivity.
Defined.

(** ** Identifier spelling *)

(** X15. The log is keyed by the identifier text, the presence flag by
    the identifier: an accepted scan sent under one spelling updates the
    member, yet leaves the listing of [member_attendance] under every
    other spelling as it was, also a spelling of the same [ObjectId]
    (hexadecimal digits in the other case). *)
Theorem scan_under_other_spelling cfg cv cn new_id spelling other action token d o m limit :
  valid_action action ->
  verify_token cfg cv spelling action token = Ok true ->
  Bson.ObjectId_of_str spelling = Some o ->
  Mongo.find_one o (member d) = Some m ->
  other <> spelling ->
  exists d' m',
    scan2 cfg cv cn new_id (AttendanceScan2.mk spelling action token) (Some d)
      = (Ok [("status", "ok")], Some d') /\
    Mongo.find_one o (member d') = Some m' /\
    Member.present m' = String.eqb action "IN" /\
    fst (member_attendance other limit (Some d'))
      = fst (member_attendance other limit (Some d)).
Proof.
  intros Ha Hv Ho Hm Hne. eexists _, _.
  rewrite (scan2_verified _ _ _ _ _ _ _ _ Ha Hv), (oid_of_str _ _ Ho).
  split; [reflexivity|]. cbn [member].
  split; [apply find_one_update_one, Hm|].
  split; [apply scan_upd_present|].
  rewrite !member_attendance_eval. cbn [fst attendance].
  unfold Mongo.find_by_member. rewrite filter_app.
  unfold scan_att, Mongo.encode_attendance. cbn [filter Attendance.member_id].
  destruct (String.eqb_spec spelling other); [congruence|].
  now rewrite app_nil_r.
Qed.

Lemma scan_under_other_spelling_witness :
  valid_action "IN" /\
  verify_token default_config 1005000000 "0102030405060708090A0BFF" "IN"
    "bkVY_VT-bopIEETWN1kV1rVSMQSwCjWySmTJpjXcy88" = Ok true /\
  Bson.ObjectId_of_str "0102030405060708090A0BFF" = Some alice_id /\
  Bson.ObjectId_of_str "0102030405060708090a0bff" = Some alice_id /\
  Mongo.find_one alice_id (member db_alice) = Some alice /\
  "0102030405060708090a0bff" <> "0102030405060708090A0BFF" /\
  exists d' m',
    scan2 default_config 1005000000 1005000001 fresh_id
      (AttendanceScan2.mk "0102030405060708090A0BFF" "IN"
         "bkVY_VT-bopIEETWN1kV1rVSMQSwCjWySmTJpjXcy88") (Some db_alice)
      = (Ok [("status", "ok")], Some d') /\
    Mongo.find_one alice_id (member d') = Some m' /\
    Member.present m' = String.eqb "IN" "IN" /\
    fst (member_attendance "0102030405060708090a0bff" 50 (Some d'))
      = fst (member_attendance "0102030405060708090a0bff" 50 (Some db_alice)).
Proof.
  split; [left; reflexivity|].
  split; [vm_compute; reflexivity|].
  split; [vm_compute; reflexivity|].
  split; [vm_compute; reflexivity|].
  split; [vm_compute; reflexivity|].
  split; [discriminate|].
  apply (scan_under_other_spelling default_config 1005000000 1005000001 fresh_id
           "0102030405060708090A0BFF" "0102030405060708090a0bff" "IN"
           "bkVY_VT-bopIEETWN1kV1rVSMQSwCjWySmTJpjXcy88" db_alice alice_id alice 50).
  - left; reflexivity.
  - vm_compute; reflexivity.
  - vm_compute; reflexivity.
  - vm_compute; reflexivity.
  - discriminate.
Defined.
